(** * Lab5: a CRUD service over users, courses and projects

    A shallow embedding of [app/main.py]: the request handlers, the
    SQLAlchemy session they drive, and the conflict-safe commit helper
    [commit_or_rollback].  Handlers are computations in a small
    state-and-exception monad over the session; [serve] plays the part of
    the FastAPI route wrapper (the [get_db] dependency and the translation
    of exceptions into HTTP replies). *)

From Stdlib Require Import ZArith Lia.
From stdpp Require Import base option list strings sorting.

Local Open Scope Z_scope.

(** ** Data model *)

(** Modelled from the spec: [app/models.py] is not part of the sources; the
    columns of [UserDB] are those of section 3 (id, name, email, age,
    student_id). *)
Module UserDB.
Record t := mk
  { id : Z; name : string; email : string; age : Z; student_id : string }.
End UserDB.

(** Modelled from the spec: [app/models.py] is not part of the sources; the
    columns of [CourseDB] are those of section 3 (id, code, name, credits). *)
Module CourseDB.
Record t := mk { id : Z; code : string; name : string; credits : Z }.
End CourseDB.

(** Modelled from the spec: [app/models.py] is not part of the sources; the
    columns of [ProjectDB] are those of section 3 (id, name, description,
    owner_id). *)
Module ProjectDB.
Record t := mk { id : Z; name : string; description : string; owner_id : Z }.
End ProjectDB.

(** The three tables.  A table is the bag of its rows, in the order the
    store scans them. *)
Record Store := mkStore
  { users : list UserDB.t;
    courses : list CourseDB.t;
    projects : list ProjectDB.t }.

Definition empty_store : Store := mkStore [] [] [].

(** Primary-key access to one table. *)
Module Table.
Section ops.
Context {A : Type} (key : A -> Z).

(** [db.get(Model, k)] *)
Definition get (k : Z) (t : list A) : option A :=
  List.find (fun r => key r =? k) t.

(** [UPDATE ... WHERE id = key r] *)
Definition put (r : A) (t : list A) : list A :=
  List.map (fun x => if key x =? key r then r else x) t.

(** [DELETE ... WHERE id = k] *)
Definition remove (k : Z) (t : list A) : list A :=
  List.filter (fun x => negb (key x =? k)) t.

(** The key the store gives the next inserted row. *)
Definition next_id (t : list A) : Z :=
  1 + foldr Z.max 0 (List.map key t).
End ops.
End Table.

(** ** The unit of work *)

Inductive Row :=
| RUser (u : UserDB.t)
| RCourse (c : CourseDB.t)
| RProject (p : ProjectDB.t).

(** What a flush sends to the store: [db.add], an attribute assignment on
    a loaded object, [db.delete]. *)
Inductive Op :=
| Insert (r : Row)
| Update (r : Row)
| Delete (r : Row).

(** Modelled from the spec: the object-relational mapping of
    [app/models.py] is not part of the sources.  Each statement touches the
    one table of its row; in particular deleting a user removes that user
    row only (section 3: no cascade onto the owned projects). *)
Definition apply_op (st : Store) (op : Op) : Store :=
  match op with
  | Insert (RUser u) => mkStore (users st ++ [u]) (courses st) (projects st)
  | Insert (RCourse c) => mkStore (users st) (courses st ++ [c]) (projects st)
  | Insert (RProject p) => mkStore (users st) (courses st) (projects st ++ [p])
  | Update (RUser u) =>
      mkStore (Table.put UserDB.id u (users st)) (courses st) (projects st)
  | Update (RCourse c) =>
      mkStore (users st) (Table.put CourseDB.id c (courses st)) (projects st)
  | Update (RProject p) =>
      mkStore (users st) (courses st) (Table.put ProjectDB.id p (projects st))
  | Delete (RUser u) =>
      mkStore (Table.remove UserDB.id (UserDB.id u) (users st))
              (courses st) (projects st)
  | Delete (RCourse c) =>
      mkStore (users st)
              (Table.remove CourseDB.id (CourseDB.id c) (courses st))
              (projects st)
  | Delete (RProject p) =>
      mkStore (users st) (courses st)
              (Table.remove ProjectDB.id (ProjectDB.id p) (projects st))
  end.

(** Two pending objects are the same object when they are rows of the same
    table with the same primary key. *)
Definition same_object (r1 r2 : Row) : bool :=
  match r1, r2 with
  | RUser a, RUser b => UserDB.id a =? UserDB.id b
  | RCourse a, RCourse b => CourseDB.id a =? CourseDB.id b
  | RProject a, RProject b => ProjectDB.id a =? ProjectDB.id b
  | _, _ => false
  end.

Definition is_update_of (r : Row) (op : Op) : bool :=
  match op with
  | Update r' => same_object r r'
  | _ => false
  end.

(** A [Session]: the rows as the store holds them, and the changes made
    through the session that are not flushed yet. *)
Record Session := mkSession { stored : Store; pending : list Op }.

(** [SessionLocal()] *)
Definition SessionLocal (st : Store) : Session := mkSession st [].

(** ** Exceptions and the handler monad *)

Inductive Exn :=
| HTTPException (status_code : Z) (detail : string)
| IntegrityError
| InvalidRequestError
| MultipleResultsFound.

Definition db (A : Type) : Type := Session -> (Exn + A) * Session.

#[export] Instance db_ret : MRet db := fun A a s => (inr a, s).

#[export] Instance db_bind : MBind db := fun A B f m s =>
  match m s with
  | (inl e, s') => (inl e, s')
  | (inr a, s') => f a s'
  end.

Definition raise {A : Type} (e : Exn) : db A := fun s => (inl e, s).

(** [try: body except IntegrityError: handler] *)
Definition try_except_IntegrityError {A : Type} (body handler : db A) : db A :=
  fun s =>
    match body s with
    | (inl IntegrityError, s') => handler s'
    | r => r
    end.

(** [for x in xs: body x], threading the loop variable [a]. *)
Fixpoint for_each {A B : Type} (body : A -> B -> db A) (a : A) (xs : list B)
  : db A :=
  match xs with
  | [] => mret a
  | x :: xs' => a' ← body a x; for_each body a' xs'
  end.

(** ** Session primitives *)

Definition db_get {A : Type} (table : Store -> list A) (key : A -> Z) (k : Z)
  : db (option A) :=
  fun s => (inr (Table.get key k (table (stored s))), s).

(** [db.add(row)] *)
Definition db_add (r : Row) : db unit :=
  fun s => (inr tt, mkSession (stored s) (pending s ++ [Insert r])).

(** An attribute assignment on a loaded object marks it dirty; the flush
    sends one [Update] with the object's final attributes. *)
Definition db_dirty (r : Row) : db unit :=
  fun s =>
    (inr tt,
     mkSession (stored s)
       (List.filter (fun op => negb (is_update_of r op)) (pending s)
          ++ [Update r])).

(** [db.delete(row)] *)
Definition db_delete (r : Row) : db unit :=
  fun s => (inr tt, mkSession (stored s) (pending s ++ [Delete r])).

(** [db.rollback()] *)
Definition db_rollback : db unit :=
  fun s => (inr tt, mkSession (stored s) []).

(** [db.close()] *)
Definition db_close (s : Session) : Session := mkSession (stored s) [].

(** [db.execute(stmt).scalars().all()] for a read-only statement. *)
Definition db_execute {A : Type} (stmt : Store -> A) : db A :=
  fun s => (inr (stmt (stored s)), s).

(** [db.refresh(row)]: load the row again by its primary key. *)
Definition db_refresh {A : Type} (table : Store -> list A) (key : A -> Z)
    (row : A) : db A :=
  fun s =>
    match Table.get key (key row) (table (stored s)) with
    | Some r => (inr r, s)
    | None => (inl InvalidRequestError, s)
    end.

(** [db.execute(stmt).scalar_one_or_none()] *)
Definition db_scalar_one_or_none {A : Type} (stmt : Store -> list A)
  : db (option A) :=
  fun s =>
    match stmt (stored s) with
    | [] => (inr None, s)
    | [r] => (inr (Some r), s)
    | _ => (inl MultipleResultsFound, s)
    end.

(** The key a transient object gets when it is flushed.  Python leaves
    [row.id] unset until then; a request adds one object, so the key the
    store hands out at the flush is the one read here. *)
Definition db_next_id {A : Type} (table : Store -> list A) (key : A -> Z)
  : db Z :=
  fun s => (inr (Table.next_id key (table (stored s))), s).

(** ** Statements *)

(** [.order_by(Model.id)] *)
Definition id_le {A : Type} (key : A -> Z) (a b : A) : Prop := key a <= key b.

#[export] Instance id_le_dec {A : Type} (key : A -> Z) (a b : A)
  : Decision (id_le key a b) := Z_le_dec (key a) (key b).

Definition order_by {A : Type} (key : A -> Z) (t : list A) : list A :=
  merge_sort (id_le key) t.

(** Modelled from the spec: the engine of [app/database.py] is not part of
    the sources.  [.offset(n)] and [.limit(n)] never fail (section 4.3); a
    negative offset skips nothing and a negative limit keeps every row. *)
Definition sql_offset {A : Type} (n : Z) (t : list A) : list A :=
  drop (Z.to_nat n) t.

Definition sql_limit {A : Type} (n : Z) (t : list A) : list A :=
  if n <? 0 then t else take (Z.to_nat n) t.

(** ** Request schemas *)

(** Modelled from the spec: [app/schemas.py] is not part of the sources; the
    fields are those the handlers of sections 4.3 to 4.5 read.  A PATCH
    schema has every field optional, [None] standing for a field the
    request left unset. *)
Module CourseCreate.
Record t := mk { code : string; name : string; credits : Z }.
End CourseCreate.

Module CourseUpdatePUT.
Record t := mk { code : string; name : string; credits : Z }.
End CourseUpdatePUT.

Module CourseUpdatePATCH.
Record t := mk
  { code : option string; name : option string; credits : option Z }.
End CourseUpdatePATCH.

Module ProjectCreate.
Record t := mk { name : string; description : string; owner_id : Z }.
End ProjectCreate.

Module ProjectCreateForUser.
Record t := mk { name : string; description : string }.
End ProjectCreateForUser.

Module ProjectUpdatePUT.
Record t := mk { name : string; description : string; owner_id : Z }.
End ProjectUpdatePUT.

Module ProjectUpdatePATCH.
Record t := mk
  { name : option string; description : option string;
    owner_id : option Z }.
End ProjectUpdatePATCH.

Module UserCreate.
Record t := mk
  { name : string; email : string; age : Z; student_id : string }.
End UserCreate.

Module UserUpdatePUT.
Record t := mk
  { name : string; email : string; age : Z; student_id : string }.
End UserUpdatePUT.

Module UserUpdatePATCH.
Record t := mk
  { name : option string; email : option string; age : option Z;
    student_id : option string }.
End UserUpdatePATCH.

(** ** Attribute assignment *)

(** One [(k, v)] item of a dumped payload, and [setattr(row, k, v)]. *)
Inductive CourseAttr :=
| course_code (v : string)
| course_name (v : string)
| course_credits (v : Z).

Inductive ProjectAttr :=
| project_name (v : string)
| project_description (v : string)
| project_owner_id (v : Z).

Inductive UserAttr :=
| user_name (v : string)
| user_email (v : string)
| user_age (v : Z)
| user_student_id (v : string).

Definition setattr_course (row : CourseDB.t) (kv : CourseAttr) : CourseDB.t :=
  match kv with
  | course_code v =>
      CourseDB.mk (CourseDB.id row) v (CourseDB.name row) (CourseDB.credits row)
  | course_name v =>
      CourseDB.mk (CourseDB.id row) (CourseDB.code row) v (CourseDB.credits row)
  | course_credits v =>
      CourseDB.mk (CourseDB.id row) (CourseDB.code row) (CourseDB.name row) v
  end.

Definition setattr_project (row : ProjectDB.t) (kv : ProjectAttr)
  : ProjectDB.t :=
  match kv with
  | project_name v =>
      ProjectDB.mk (ProjectDB.id row) v (ProjectDB.description row)
        (ProjectDB.owner_id row)
  | project_description v =>
      ProjectDB.mk (ProjectDB.id row) (ProjectDB.name row) v
        (ProjectDB.owner_id row)
  | project_owner_id v =>
      ProjectDB.mk (ProjectDB.id row) (ProjectDB.name row)
        (ProjectDB.description row) v
  end.

Definition setattr_user (row : UserDB.t) (kv : UserAttr) : UserDB.t :=
  match kv with
  | user_name v =>
      UserDB.mk (UserDB.id row) v (UserDB.email row) (UserDB.age row)
        (UserDB.student_id row)
  | user_email v =>
      UserDB.mk (UserDB.id row) (UserDB.name row) v (UserDB.age row)
        (UserDB.student_id row)
  | user_age v =>
      UserDB.mk (UserDB.id row) (UserDB.name row) (UserDB.email row) v
        (UserDB.student_id row)
  | user_student_id v =>
      UserDB.mk (UserDB.id row) (UserDB.name row) (UserDB.email row)
        (UserDB.age row) v
  end.

(** The items of a field that was set, none for a field left unset. *)
Definition item {A B : Type} (k : A -> B) (v : option A) : list B :=
  match v with
  | Some x => [k x]
  | None => []
  end.

(** [payload.model_dump(exclude_unset=True).items()] *)
Definition dump_course_patch (payload : CourseUpdatePATCH.t)
  : list CourseAttr :=
  item course_code (CourseUpdatePATCH.code payload)
    ++ item course_name (CourseUpdatePATCH.name payload)
    ++ item course_credits (CourseUpdatePATCH.credits payload).

Definition dump_project_patch (payload : ProjectUpdatePATCH.t)
  : list ProjectAttr :=
  item project_name (ProjectUpdatePATCH.name payload)
    ++ item project_description (ProjectUpdatePATCH.description payload)
    ++ item project_owner_id (ProjectUpdatePATCH.owner_id payload).

Definition dump_user_patch (payload : UserUpdatePATCH.t) : list UserAttr :=
  item user_name (UserUpdatePATCH.name payload)
    ++ item user_email (UserUpdatePATCH.email payload)
    ++ item user_age (UserUpdatePATCH.age payload)
    ++ item user_student_id (UserUpdatePATCH.student_id payload).

(** [data["owner_id"]], [None] when ["owner_id" in data] is false. *)
Fixpoint data_owner_id (data : list ProjectAttr) : option Z :=
  match data with
  | [] => None
  | project_owner_id v :: _ => Some v
  | _ :: data' => data_owner_id data'
  end.

(** [setattr] on an object the session tracks. *)
Definition db_setattr_course (row : CourseDB.t) (kv : CourseAttr)
  : db CourseDB.t :=
  let row' := setattr_course row kv in
  db_dirty (RCourse row');; mret row'.

Definition db_setattr_project (row : ProjectDB.t) (kv : ProjectAttr)
  : db ProjectDB.t :=
  let row' := setattr_project row kv in
  db_dirty (RProject row');; mret row'.

Definition db_setattr_user (row : UserDB.t) (kv : UserAttr) : db UserDB.t :=
  let row' := setattr_user row kv in
  db_dirty (RUser row');; mret row'.

Section Engine.

(** The store's verdict on one statement in one state: [true] when it
    reports a uniqueness/integrity violation.  The engine and the
    constraints it enforces come from [app/database.py] and
    [app/models.py], which are not part of the sources. *)
Variable violates : Store -> Op -> bool.

(** The statements of one transaction, in order; [None] when the store
    rejects one of them, in which case none is applied. *)
Fixpoint flush (st : Store) (ops : list Op) : option Store :=
  match ops with
  | [] => Some st
  | op :: ops' =>
      if violates st op then None else flush (apply_op st op) ops'
  end.

(** [db.commit()] *)
Definition db_commit : db unit :=
  fun s =>
    match flush (stored s) (pending s) with
    | Some st' => (inr tt, mkSession st' [])
    | None => (inl IntegrityError, s)
    end.

Definition commit_or_rollback (error_msg : string) : db unit :=
  try_except_IntegrityError
    db_commit
    (db_rollback ;; raise (HTTPException 409 error_msg)).


(** *** Courses *)

Definition create_course (course : CourseCreate.t) : db CourseDB.t :=
  id ← db_next_id courses CourseDB.id;
  let row := CourseDB.mk id (CourseCreate.code course)
               (CourseCreate.name course) (CourseCreate.credits course) in
  db_add (RCourse row);;
  commit_or_rollback "Course already exists";;
  db_refresh courses CourseDB.id row.

Definition list_courses (limit offset : Z) : db (list CourseDB.t) :=
  db_execute (fun st =>
    sql_limit limit (sql_offset offset (order_by CourseDB.id (courses st)))).

Definition get_course (course_id : Z) : db CourseDB.t :=
  row ← db_get courses CourseDB.id course_id;
  match row with
  | None => raise (HTTPException 404 "Course not found")
  | Some row => mret row
  end.

Definition put_course (course_id : Z) (payload : CourseUpdatePUT.t)
  : db CourseDB.t :=
  row ← db_get courses CourseDB.id course_id;
  match row with
  | None => raise (HTTPException 404 "Course not found")
  | Some row =>
      row ← db_setattr_course row
              (course_code (CourseUpdatePUT.code payload));
      row ← db_setattr_course row
              (course_name (CourseUpdatePUT.name payload));
      row ← db_setattr_course row
              (course_credits (CourseUpdatePUT.credits payload));
      commit_or_rollback "Course update failed";;
      db_refresh courses CourseDB.id row
  end.

Definition patch_course (course_id : Z) (payload : CourseUpdatePATCH.t)
  : db CourseDB.t :=
  row ← db_get courses CourseDB.id course_id;
  match row with
  | None => raise (HTTPException 404 "Course not found")
  | Some row =>
      row ← for_each db_setattr_course row (dump_course_patch payload);
      commit_or_rollback "Course update failed";;
      db_refresh courses CourseDB.id row
  end.

Definition delete_course (course_id : Z) : db unit :=
  row ← db_get courses CourseDB.id course_id;
  match row with
  | None => raise (HTTPException 404 "Course not found")
  | Some row =>
      db_delete (RCourse row);;
      db_commit;;
      mret tt
  end.

(** *** Projects *)

Definition create_project (project : ProjectCreate.t) : db ProjectDB.t :=
  owner ← db_get users UserDB.id (ProjectCreate.owner_id project);
  match owner with
  | None => raise (HTTPException 404 "User not found")
  | Some _ =>
      id ← db_next_id projects ProjectDB.id;
      let row := ProjectDB.mk id (ProjectCreate.name project)
                   (ProjectCreate.description project)
                   (ProjectCreate.owner_id project) in
      db_add (RProject row);;
      commit_or_rollback "Project creation failed";;
      db_refresh projects ProjectDB.id row
  end.

Definition list_projects : db (list ProjectDB.t) :=
  db_execute (fun st => order_by ProjectDB.id (projects st)).

(** [selectinload(ProjectDB.owner)] loads the owner next to the row. *)
Definition get_project_owner (project_id : Z)
  : db (ProjectDB.t * option UserDB.t) :=
  row ← db_scalar_one_or_none (fun st =>
          List.filter (fun p => ProjectDB.id p =? project_id) (projects st));
  match row with
  | None => raise (HTTPException 404 "Project not found")
  | Some row =>
      owner ← db_get users UserDB.id (ProjectDB.owner_id row);
      mret (row, owner)
  end.

Definition put_project (project_id : Z) (payload : ProjectUpdatePUT.t)
  : db ProjectDB.t :=
  row ← db_get projects ProjectDB.id project_id;
  match row with
  | None => raise (HTTPException 404 "Project not found")
  | Some row =>
      (if negb (ProjectUpdatePUT.owner_id payload =? ProjectDB.owner_id row)
       then
         owner ← db_get users UserDB.id (ProjectUpdatePUT.owner_id payload);
         match owner with
         | None => raise (HTTPException 404 "Owner not found")
         | Some _ => mret tt
         end
       else mret tt);;
      row ← db_setattr_project row
              (project_name (ProjectUpdatePUT.name payload));
      row ← db_setattr_project row
              (project_description (ProjectUpdatePUT.description payload));
      row ← db_setattr_project row
              (project_owner_id (ProjectUpdatePUT.owner_id payload));
      commit_or_rollback "Project update failed";;
      db_refresh projects ProjectDB.id row
  end.

Definition patch_project (project_id : Z) (payload : ProjectUpdatePATCH.t)
  : db ProjectDB.t :=
  row ← db_get projects ProjectDB.id project_id;
  match row with
  | None => raise (HTTPException 404 "Project not found")
  | Some row =>
      let data := dump_project_patch payload in
      match data_owner_id data with
      | Some owner_id =>
          owner ← db_get users UserDB.id owner_id;
          match owner with
          | None => raise (HTTPException 404 "Owner not found")
          | Some _ => mret tt
          end
      | None => mret tt
      end;;
      row ← for_each db_setattr_project row data;
      commit_or_rollback "Project update failed";;
      db_refresh projects ProjectDB.id row
  end.

Definition delete_project (project_id : Z) : db unit :=
  row ← db_get projects ProjectDB.id project_id;
  match row with
  | None => raise (HTTPException 404 "Project not found")
  | Some row =>
      db_delete (RProject row);;
      db_commit;;
      mret tt
  end.

Definition get_user_projects (user_id : Z) : db (list ProjectDB.t) :=
  db_execute (fun st =>
    List.filter (fun p => ProjectDB.owner_id p =? user_id) (projects st)).

Definition create_user_project (user_id : Z)
    (project : ProjectCreateForUser.t) : db ProjectDB.t :=
  user ← db_get users UserDB.id user_id;
  match user with
  | None => raise (HTTPException 404 "User not found")
  | Some _ =>
      id ← db_next_id projects ProjectDB.id;
      let row := ProjectDB.mk id (ProjectCreateForUser.name project)
                   (ProjectCreateForUser.description project) user_id in
      db_add (RProject row);;
      commit_or_rollback "Project creation failed";;
      db_refresh projects ProjectDB.id row
  end.

(** *** Users *)

Definition list_users : db (list UserDB.t) :=
  db_execute (fun st => order_by UserDB.id (users st)).

Definition get_user (user_id : Z) : db UserDB.t :=
  user ← db_get users UserDB.id user_id;
  match user with
  | None => raise (HTTPException 404 "User not found")
  | Some user => mret user
  end.

Definition add_user (payload : UserCreate.t) : db UserDB.t :=
  id ← db_next_id users UserDB.id;
  let user := UserDB.mk id (UserCreate.name payload)
                (UserCreate.email payload) (UserCreate.age payload)
                (UserCreate.student_id payload) in
  db_add (RUser user);;
  commit_or_rollback "User already exists";;
  db_refresh users UserDB.id user.

Definition delete_user (user_id : Z) : db unit :=
  user ← db_get users UserDB.id user_id;
  match user with
  | None => raise (HTTPException 404 "User not found")
  | Some user =>
      db_delete (RUser user);;
      db_commit;;
      mret tt
  end.

Definition put_user (user_id : Z) (payload : UserUpdatePUT.t) : db UserDB.t :=
  user ← db_get users UserDB.id user_id;
  match user with
  | None => raise (HTTPException 404 "User not found")
  | Some user =>
      user ← db_setattr_user user (user_name (UserUpdatePUT.name payload));
      user ← db_setattr_user user (user_email (UserUpdatePUT.email payload));
      user ← db_setattr_user user (user_age (UserUpdatePUT.age payload));
      user ← db_setattr_user user
               (user_student_id (UserUpdatePUT.student_id payload));
      commit_or_rollback "User update failed";;
      db_refresh users UserDB.id user
  end.

Definition patch_user (user_id : Z) (payload : UserUpdatePATCH.t)
  : db UserDB.t :=
  user ← db_get users UserDB.id user_id;
  match user with
  | None => raise (HTTPException 404 "User not found")
  | Some user =>
      user ← for_each db_setattr_user user (dump_user_patch payload);
      commit_or_rollback "User update failed";;
      db_refresh users UserDB.id user
  end.

(** ** The application *)

(** What a client receives: the handler's value under the route's status
    code, the status and detail of an [HTTPException], or the server
    error the framework makes of any other exception. *)
Inductive Reply (A : Type) :=
| Response (status_code : Z) (body : A)
| Error (status_code : Z) (detail : string)
| InternalServerError (e : Exn).
Global Arguments Response {A} status_code body.
Global Arguments Error {A} status_code detail.
Global Arguments InternalServerError {A} e.

Definition status {A : Type} (r : Reply A) : Z :=
  match r with
  | Response c _ => c
  | Error c _ => c
  | InternalServerError _ => 500
  end.

(** One request: a session from [get_db], the handler, the session closed
    on every exit path. *)
Definition serve {A B : Type} (status_code : Z) (response_model : A -> B)
    (handler : db A) (st : Store) : Reply B * Store :=
  let '(r, s) := handler (SessionLocal st) in
  (match r with
   | inr a => Response status_code (response_model a)
   | inl (HTTPException c d) => Error c d
   | inl e => InternalServerError e
   end,
   stored (db_close s)).

Inductive Body :=
| Health (status : string)
| CourseRead (c : CourseDB.t)
| CourseList (cs : list CourseDB.t)
| ProjectRead (p : ProjectDB.t)
| ProjectList (ps : list ProjectDB.t)
| ProjectReadWithOwner (p : ProjectDB.t) (owner : option UserDB.t)
| UserRead (u : UserDB.t)
| UserList (us : list UserDB.t)
| Empty.

Inductive Request :=
| GET_health
| POST_courses (course : CourseCreate.t)
| GET_courses (limit offset : option Z)
| GET_course (course_id : Z)
| PUT_course (course_id : Z) (payload : CourseUpdatePUT.t)
| PATCH_course (course_id : Z) (payload : CourseUpdatePATCH.t)
| DELETE_course (course_id : Z)
| POST_projects (project : ProjectCreate.t)
| GET_projects
| GET_project (project_id : Z)
| PUT_project (project_id : Z) (payload : ProjectUpdatePUT.t)
| PATCH_project (project_id : Z) (payload : ProjectUpdatePATCH.t)
| DELETE_project (project_id : Z)
| GET_user_projects (user_id : Z)
| POST_user_projects (user_id : Z) (project : ProjectCreateForUser.t)
| GET_users
| GET_user (user_id : Z)
| POST_users (payload : UserCreate.t)
| DELETE_user (user_id : Z)
| PUT_user (user_id : Z) (payload : UserUpdatePUT.t)
| PATCH_user (user_id : Z) (payload : UserUpdatePATCH.t).

(** The routes, with the status code and response model of each
    decorator and the defaults of the query parameters. *)
Definition app (req : Request) : Store -> Reply Body * Store :=
  match req with
  | GET_health => serve 200 Health (mret "ok")
  | POST_courses course => serve 201 CourseRead (create_course course)
  | GET_courses limit offset =>
      serve 200 CourseList (list_courses (default 10 limit) (default 0 offset))
  | GET_course course_id => serve 200 CourseRead (get_course course_id)
  | PUT_course course_id payload =>
      serve 200 CourseRead (put_course course_id payload)
  | PATCH_course course_id payload =>
      serve 200 CourseRead (patch_course course_id payload)
  | DELETE_course course_id =>
      serve 204 (fun _ : unit => Empty) (delete_course course_id)
  | POST_projects project => serve 201 ProjectRead (create_project project)
  | GET_projects => serve 200 ProjectList list_projects
  | GET_project project_id =>
      serve 200 (fun r => ProjectReadWithOwner (fst r) (snd r))
        (get_project_owner project_id)
  | PUT_project project_id payload =>
      serve 200 ProjectRead (put_project project_id payload)
  | PATCH_project project_id payload =>
      serve 200 ProjectRead (patch_project project_id payload)
  | DELETE_project project_id =>
      serve 204 (fun _ : unit => Empty) (delete_project project_id)
  | GET_user_projects user_id =>
      serve 200 ProjectList (get_user_projects user_id)
  | POST_user_projects user_id project =>
      serve 201 ProjectRead (create_user_project user_id project)
  | GET_users => serve 200 UserList list_users
  | GET_user user_id => serve 200 UserRead (get_user user_id)
  | POST_users payload => serve 201 UserRead (add_user payload)
  | DELETE_user user_id =>
      serve 204 (fun _ : unit => Empty) (delete_user user_id)
  | PUT_user user_id payload => serve 200 UserRead (put_user user_id payload)
  | PATCH_user user_id payload =>
      serve 200 UserRead (patch_user user_id payload)
  end.

End Engine.

(** ** Stores *)

(** Modelled from the spec: the constraints of [app/models.py] are not part
    of the sources.  Section 3 makes [Course.code], [User.email] and
    [User.student_id] unique: a statement is rejected when it would leave
    two rows with the same value. *)
Definition unique_keys (st : Store) (op : Op) : bool :=
  match op with
  | Insert (RCourse c) | Update (RCourse c) =>
      existsb (fun r => negb (CourseDB.id r =? CourseDB.id c)
                        && String.eqb (CourseDB.code r) (CourseDB.code c))
        (courses st)
  | Insert (RUser u) | Update (RUser u) =>
      existsb (fun r => negb (UserDB.id r =? UserDB.id u)
                        && (String.eqb (UserDB.email r) (UserDB.email u)
                            || String.eqb (UserDB.student_id r)
                                 (UserDB.student_id u)))
        (users st)
  | _ => false
  end.

(** Modelled from the spec: a store that also enforces the foreign key
    [Project.owner_id -> User.id] of section 3, on the project side and on
    the user side. *)
Definition foreign_keys (st : Store) (op : Op) : bool :=
  unique_keys st op
  || match op with
     | Insert (RProject p) | Update (RProject p) =>
         negb (existsb (fun u => UserDB.id u =? ProjectDB.owner_id p)
                 (users st))
     | Delete (RUser u) =>
         existsb (fun p => ProjectDB.owner_id p =? UserDB.id u) (projects st)
     | _ => false
     end.

(** ** Outcomes *)

(** The row a PATCH payload asks for: each field the payload sets, and the
    row's own value for each field it leaves unset. *)
Definition patched_course (row : CourseDB.t) (payload : CourseUpdatePATCH.t)
  : CourseDB.t :=
  CourseDB.mk (CourseDB.id row)
    (default (CourseDB.code row) (CourseUpdatePATCH.code payload))
    (default (CourseDB.name row) (CourseUpdatePATCH.name payload))
    (default (CourseDB.credits row) (CourseUpdatePATCH.credits payload)).

Definition patched_project (row : ProjectDB.t) (payload : ProjectUpdatePATCH.t)
  : ProjectDB.t :=
  ProjectDB.mk (ProjectDB.id row)
    (default (ProjectDB.name row) (ProjectUpdatePATCH.name payload))
    (default (ProjectDB.description row)
       (ProjectUpdatePATCH.description payload))
    (default (ProjectDB.owner_id row) (ProjectUpdatePATCH.owner_id payload)).

Definition patched_user (row : UserDB.t) (payload : UserUpdatePATCH.t)
  : UserDB.t :=
  UserDB.mk (UserDB.id row)
    (default (UserDB.name row) (UserUpdatePATCH.name payload))
    (default (UserDB.email row) (UserUpdatePATCH.email payload))
    (default (UserDB.age row) (UserUpdatePATCH.age payload))
    (default (UserDB.student_id row) (UserUpdatePATCH.student_id payload)).

(** The reply to a request that sends the one statement [op] through
    [commit_or_rollback]: a 409 with the handler's message and the store
    untouched when the store rejects [op], the route's response and the
    store with [op] applied otherwise. *)
Definition committed {B : Type} (violates : Store -> Op -> bool) (st : Store)
    (op : Op) (error_msg : string) (status_code : Z) (body : B)
  : Reply B * Store :=
  if violates st op then (Error 409 error_msg, st)
  else (Response status_code body, apply_op st op).

(** The reply to a request that sends [op] through a bare [db.commit()]. *)
Definition committed_bare {B : Type} (violates : Store -> Op -> bool)
    (st : Store) (op : Op) (status_code : Z) (body : B) : Reply B * Store :=
  if violates st op then (InternalServerError IntegrityError, st)
  else (Response status_code body, apply_op st op).

(** The routes whose handler commits through [commit_or_rollback]. *)
Definition is_post_put_patch (req : Request) : bool :=
  match req with
  | POST_courses _ | PUT_course _ _ | PATCH_course _ _
  | POST_projects _ | PUT_project _ _ | PATCH_project _ _
  | POST_user_projects _ _
  | POST_users _ | PUT_user _ _ | PATCH_user _ _ => true
  | _ => false
  end.

(** A store that accepts every statement. *)
Definition accepts_all (st : Store) (op : Op) : bool := false.

(** The HTTP method of each route. *)
Inductive Method := GET | POST | PUT | PATCH | DELETE.

Definition method (req : Request) : Method :=
  match req with
  | GET_health | GET_courses _ _ | GET_course _ | GET_projects
  | GET_project _ | GET_user_projects _ | GET_users | GET_user _ => GET
  | POST_courses _ | POST_projects _ | POST_user_projects _ _
  | POST_users _ => POST
  | PUT_course _ _ | PUT_project _ _ | PUT_user _ _ => PUT
  | PATCH_course _ _ | PATCH_project _ _ | PATCH_user _ _ => PATCH
  | DELETE_course _ | DELETE_project _ | DELETE_user _ => DELETE
  end.

(** A reply that carries the handler's value. *)
Definition is_response {A : Type} (r : Reply A) : bool :=
  match r with
  | Response _ _ => true
  | _ => false
  end.

(** Primary keys: no two rows of a table share an id. *)
Definition keys_unique (st : Store) : Prop :=
  NoDup (List.map UserDB.id (users st))
  /\ NoDup (List.map CourseDB.id (courses st))
  /\ NoDup (List.map ProjectDB.id (projects st)).

(** ** Sample data *)

Definition alice : UserDB.t := UserDB.mk 1 "A" "a@x.com" 20 "S1".
Definition thesis : ProjectDB.t := ProjectDB.mk 1 "P" "d" 1.
Definition cs101 : CourseDB.t := CourseDB.mk 1 "CS101" "Programming" 5.
Definition ma101 : CourseDB.t := CourseDB.mk 2 "MA101" "Calculus" 5.
Definition ph101 : CourseDB.t := CourseDB.mk 3 "PH101" "Physics" 5.
Definition cs101_again : CourseDB.t := CourseDB.mk 3 "CS101" "Programming" 5.

(** One user, the project she owns, and two courses. *)
Definition campus : Store := mkStore [alice] [cs101; ma101] [thesis].

Definition campus_without_alice : Store :=
  mkStore [] [cs101; ma101] [thesis].

(** A project whose owner is gone: the store after [POST /api/users],
    [POST /api/projects] for that user and [DELETE /api/users/1], starting
    from nothing (see [orphaned_reached]). *)
Definition orphaned : Store := mkStore [] [] [thesis].

(** * Properties *)

(** ** Tables *)

Section table_facts.
Context {A : Type} (key : A -> Z).

Lemma get_key k t r : Table.get key k t = Some r -> key r = k.
Proof.
  unfold Table.get. intros H. apply List.find_some in H as [_ H]. lia.
Qed.

Lemma get_remove k t : Table.get key k (Table.remove key k t) = None.
Proof.
  unfold Table.get, Table.remove.
  induction t as [|x t IH]; simpl; [done|].
  destruct (key x =? k) eqn:E; simpl; [done|]. by rewrite E.
Qed.

Lemma get_put k t r r' :
  Table.get key k t = Some r -> key r' = k ->
  Table.get key k (Table.put key r' t) = Some r'.
Proof.
  unfold Table.get, Table.put. intros H <-.
  induction t as [|x t IH]; simpl in *; [done|].
  destruct (key x =? key r') eqn:E; simpl.
  - by rewrite Z.eqb_refl.
  - rewrite E. auto.
Qed.

Lemma next_id_above t x : In x t -> key x < Table.next_id key t.
Proof.
  unfold Table.next_id.
  induction t as [|y t IH]; simpl; [done|].
  intros [->|H]; [lia|]. specialize (IH H). lia.
Qed.

Lemma get_insert t r :
  key r = Table.next_id key t -> Table.get key (key r) (t ++ [r]) = Some r.
Proof.
  unfold Table.get. intros Hr.
  assert (Hlt : forall x, In x t -> key x < key r).
  { intros x Hx. rewrite Hr. by apply next_id_above. }
  clear Hr. induction t as [|x t IH]; simpl.
  - by rewrite Z.eqb_refl.
  - destruct (key x =? key r) eqn:E.
    + specialize (Hlt x (or_introl eq_refl)). lia.
    + apply IH. intros y Hy. apply Hlt. by right.
Qed.


End table_facts.

(** The order of [order_by] is a total preorder. *)
#[export] Instance id_le_transitive {A : Type} (key : A -> Z)
  : Transitive (id_le key).
Proof. unfold id_le. intros a b c. lia. Qed.

#[export] Instance id_le_total {A : Type} (key : A -> Z) : Total (id_le key).
Proof. unfold id_le. intros a b. lia. Qed.

(** ** The commit *)

Lemma flush_app violates st ops1 ops2 :
  flush violates st (ops1 ++ ops2) =
  match flush violates st ops1 with
  | Some st1 => flush violates st1 ops2
  | None => None
  end.
Proof.
  revert st. induction ops1 as [|op ops1 IH]; intros st; simpl; [done|].
  by destruct (violates st op).
Qed.

(** A transaction fails exactly when the store rejects one of its
    statements after it accepted the earlier ones. *)
Lemma flush_None violates st ops :
  flush violates st ops = None <->
  exists ops1 op ops2 st1,
    ops = ops1 ++ op :: ops2 /\ flush violates st ops1 = Some st1
    /\ violates st1 op = true.
Proof.
  split.
  - revert st. induction ops as [|op ops IH]; intros st; simpl; [done|].
    destruct (violates st op) eqn:E.
    + intros _. by exists [], op, ops, st.
    + intros H. destruct (IH _ H) as (ops1 & op' & ops2 & st1 & -> & H1 & H2).
      exists (op :: ops1), op', ops2, st1. simpl. by rewrite E.
  - intros (ops1 & op & ops2 & st1 & -> & H1 & H2).
    rewrite flush_app, H1. simpl. by rewrite H2.
Qed.

Ltac run :=
  cbv [mbind db_bind mret db_ret raise db_get db_add db_dirty db_delete
       db_rollback db_close db_execute db_refresh db_scalar_one_or_none
       db_next_id db_commit commit_or_rollback try_except_IntegrityError
       db_setattr_course db_setattr_project db_setattr_user
       SessionLocal stored pending] in *.


(** ** Attribute assignment and the dumped payloads *)

Lemma filter_updates r ops :
  (forall op, In op ops -> is_update_of r op = true) ->
  List.filter (fun op => negb (is_update_of r op)) ops = [].
Proof.
  induction ops as [|op ops IH]; simpl; [done|].
  intros H. rewrite (H op (or_introl eq_refl)). simpl.
  apply IH. intros op' Hop'. apply H. by right.
Qed.

Lemma same_object_refl r : same_object r r = true.
Proof. destruct r; simpl; apply Z.eqb_refl. Qed.

Ltac for_each_setattr :=
  let IH := fresh "IH" in
  let a := fresh "a" in
  let data := fresh "data" in
  intros data; induction data as [|a data IH];
  intros row st ops Hops; [done|];
  cbn [for_each foldl]; run;
  rewrite filter_updates;
  [ cbn [Datatypes.app]; rewrite IH;
    [ by destruct data
    | intros op [<-|[]]; simpl; apply Z.eqb_refl ]
  | let op := fresh "op" in
    let Hop := fresh "Hop" in
    intros op Hop; generalize (Hops op Hop);
    destruct op as [r|r|r]; try done; by destruct r, a ].

Lemma for_each_setattr_course data : forall row st ops,
  (forall op, In op ops -> is_update_of (RCourse row) op = true) ->
  for_each db_setattr_course row data (mkSession st ops) =
  (inr (foldl setattr_course row data),
   mkSession st
     match data with
     | [] => ops
     | _ => [Update (RCourse (foldl setattr_course row data))]
     end).
Proof. revert data. for_each_setattr. Qed.

Lemma for_each_setattr_project data : forall row st ops,
  (forall op, In op ops -> is_update_of (RProject row) op = true) ->
  for_each db_setattr_project row data (mkSession st ops) =
  (inr (foldl setattr_project row data),
   mkSession st
     match data with
     | [] => ops
     | _ => [Update (RProject (foldl setattr_project row data))]
     end).
Proof. revert data. for_each_setattr. Qed.

Lemma for_each_setattr_user data : forall row st ops,
  (forall op, In op ops -> is_update_of (RUser row) op = true) ->
  for_each db_setattr_user row data (mkSession st ops) =
  (inr (foldl setattr_user row data),
   mkSession st
     match data with
     | [] => ops
     | _ => [Update (RUser (foldl setattr_user row data))]
     end).
Proof. revert data. for_each_setattr. Qed.

Lemma setattr_dump_course row payload :
  foldl setattr_course row (dump_course_patch payload)
  = patched_course row payload.
Proof. by destruct row, payload as [[?|] [?|] [?|]]. Qed.

Lemma setattr_dump_project row payload :
  foldl setattr_project row (dump_project_patch payload)
  = patched_project row payload.
Proof. by destruct row, payload as [[?|] [?|] [?|]]. Qed.

Lemma setattr_dump_user row payload :
  foldl setattr_user row (dump_user_patch payload) = patched_user row payload.
Proof. by destruct row, payload as [[?|] [?|] [?|] [?|]]. Qed.

Lemma data_owner_id_dump payload :
  data_owner_id (dump_project_patch payload)
  = ProjectUpdatePATCH.owner_id payload.
Proof. by destruct payload as [[?|] [?|] [?|]]. Qed.

(** ** The handlers, request by request *)

Section runs.
Variable violates : Store -> Op -> bool.

Ltac commit :=
  unfold committed, committed_bare; cbv zeta; cbn [flush Datatypes.app];
  match goal with
  | |- context [violates ?st ?op] => destruct (violates st op)
  end;
  cbn -[Table.get Table.put Table.remove Table.next_id]; [done|].

Lemma create_course_run course st :
  app violates (POST_courses course) st =
  let row := CourseDB.mk (Table.next_id CourseDB.id (courses st))
               (CourseCreate.code course) (CourseCreate.name course)
               (CourseCreate.credits course) in
  committed violates st (Insert (RCourse row)) "Course already exists"
    201 (CourseRead row).
Proof.
  unfold app, serve, create_course. run. commit.
  set (row := CourseDB.mk _ _ _ _).
  change (Table.next_id CourseDB.id (courses st)) with (CourseDB.id row).
  by rewrite get_insert.
Qed.

Lemma put_course_run course_id payload st :
  app violates (PUT_course course_id payload) st =
  match Table.get CourseDB.id course_id (courses st) with
  | None => (Error 404 "Course not found", st)
  | Some row =>
      let row' := CourseDB.mk (CourseDB.id row) (CourseUpdatePUT.code payload)
                    (CourseUpdatePUT.name payload)
                    (CourseUpdatePUT.credits payload) in
      committed violates st (Update (RCourse row')) "Course update failed"
        200 (CourseRead row')
  end.
Proof.
  unfold app, serve, put_course, db_setattr_course. run.
  destruct (Table.get _ _ _) as [row|] eqn:Hrow; [|done].
  pose proof (get_key _ _ _ _ Hrow) as Hid. subst course_id.
  cbn -[flush Table.get]. repeat (rewrite Z.eqb_refl; cbn -[flush Table.get]).
  commit. by rewrite (get_put _ _ _ row).
Qed.

Lemma patch_course_run course_id payload st :
  app violates (PATCH_course course_id payload) st =
  match Table.get CourseDB.id course_id (courses st) with
  | None => (Error 404 "Course not found", st)
  | Some row =>
      match dump_course_patch payload with
      | [] => (Response 200 (CourseRead row), st)
      | _ =>
          let row' := patched_course row payload in
          committed violates st (Update (RCourse row')) "Course update failed"
            200 (CourseRead row')
      end
  end.
Proof.
  unfold app, serve, patch_course. run.
  destruct (Table.get _ _ _) as [row|] eqn:Hrow; [|done].
  pose proof (get_key _ _ _ _ Hrow) as Hid. subst course_id.
  rewrite for_each_setattr_course by (by intros op []).
  rewrite setattr_dump_course.
  destruct (dump_course_patch payload) as [|kv data].
  - cbn -[Table.get]. by rewrite Hrow.
  - commit. by rewrite (get_put _ _ _ row).
Qed.

Lemma delete_course_run course_id st :
  app violates (DELETE_course course_id) st =
  match Table.get CourseDB.id course_id (courses st) with
  | None => (Error 404 "Course not found", st)
  | Some row => committed_bare violates st (Delete (RCourse row)) 204 Empty
  end.
Proof.
  unfold app, serve, delete_course. run.
  destruct (Table.get _ _ _) as [row|]; [|done]. by commit.
Qed.

Lemma create_project_run project st :
  app violates (POST_projects project) st =
  match Table.get UserDB.id (ProjectCreate.owner_id project) (users st) with
  | None => (Error 404 "User not found", st)
  | Some _ =>
      let row := ProjectDB.mk (Table.next_id ProjectDB.id (projects st))
                   (ProjectCreate.name project)
                   (ProjectCreate.description project)
                   (ProjectCreate.owner_id project) in
      committed violates st (Insert (RProject row)) "Project creation failed"
        201 (ProjectRead row)
  end.
Proof.
  unfold app, serve, create_project. run.
  destruct (Table.get _ _ _) as [owner|]; [|done]. commit.
  set (row := ProjectDB.mk _ _ _ _).
  change (Table.next_id ProjectDB.id (projects st)) with (ProjectDB.id row).
  by rewrite get_insert.
Qed.

Lemma create_user_project_run user_id project st :
  app violates (POST_user_projects user_id project) st =
  match Table.get UserDB.id user_id (users st) with
  | None => (Error 404 "User not found", st)
  | Some _ =>
      let row := ProjectDB.mk (Table.next_id ProjectDB.id (projects st))
                   (ProjectCreateForUser.name project)
                   (ProjectCreateForUser.description project) user_id in
      committed violates st (Insert (RProject row)) "Project creation failed"
        201 (ProjectRead row)
  end.
Proof.
  unfold app, serve, create_user_project. run.
  destruct (Table.get _ _ _) as [owner|]; [|done]. commit.
  set (row := ProjectDB.mk _ _ _ _).
  change (Table.next_id ProjectDB.id (projects st)) with (ProjectDB.id row).
  by rewrite get_insert.
Qed.

Lemma put_project_run project_id payload st :
  app violates (PUT_project project_id payload) st =
  match Table.get ProjectDB.id project_id (projects st) with
  | None => (Error 404 "Project not found", st)
  | Some row =>
      let row' := ProjectDB.mk (ProjectDB.id row)
                    (ProjectUpdatePUT.name payload)
                    (ProjectUpdatePUT.description payload)
                    (ProjectUpdatePUT.owner_id payload) in
      let update :=
        committed violates st (Update (RProject row')) "Project update failed"
          200 (ProjectRead row') in
      if negb (ProjectUpdatePUT.owner_id payload =? ProjectDB.owner_id row)
      then
        match
          Table.get UserDB.id (ProjectUpdatePUT.owner_id payload) (users st)
        with
        | None => (Error 404 "Owner not found", st)
        | Some _ => update
        end
      else update
  end.
Proof.
  unfold app, serve, put_project, db_setattr_project. run.
  destruct (Table.get ProjectDB.id _ _) as [row|] eqn:Hrow; [|done].
  pose proof (get_key _ _ _ _ Hrow) as Hid. subst project_id.
  destruct (negb _); cbv zeta.
  - destruct (Table.get UserDB.id _ _) as [owner|]; [|done].
    cbn -[flush Table.get].
    repeat (rewrite Z.eqb_refl; cbn -[flush Table.get]).
    commit. by rewrite (get_put _ _ _ row).
  - cbn -[flush Table.get].
    repeat (rewrite Z.eqb_refl; cbn -[flush Table.get]).
    commit. by rewrite (get_put _ _ _ row).
Qed.

Lemma patch_project_run project_id payload st :
  app violates (PATCH_project project_id payload) st =
  match Table.get ProjectDB.id project_id (projects st) with
  | None => (Error 404 "Project not found", st)
  | Some row =>
      let row' := patched_project row payload in
      let update :=
        match dump_project_patch payload with
        | [] => (Response 200 (ProjectRead row), st)
        | _ =>
            committed violates st (Update (RProject row'))
              "Project update failed" 200 (ProjectRead row')
        end in
      match ProjectUpdatePATCH.owner_id payload with
      | Some owner_id =>
          match Table.get UserDB.id owner_id (users st) with
          | None => (Error 404 "Owner not found", st)
          | Some _ => update
          end
      | None => update
      end
  end.
Proof.
  unfold app, serve, patch_project. run.
  destruct (Table.get ProjectDB.id _ _) as [row|] eqn:Hrow; [|done].
  pose proof (get_key _ _ _ _ Hrow) as Hid. subst project_id.
  rewrite data_owner_id_dump. cbv zeta.
  destruct (ProjectUpdatePATCH.owner_id payload) as [owner_id|];
    [destruct (Table.get UserDB.id _ _) as [owner|]; [|done]|];
    rewrite for_each_setattr_project by (by intros op []);
    rewrite setattr_dump_project;
    (destruct (dump_project_patch payload) as [|kv data];
     [ cbn -[Table.get]; by rewrite Hrow
     | commit; by rewrite (get_put _ _ _ row) ]).
Qed.

Lemma delete_project_run project_id st :
  app violates (DELETE_project project_id) st =
  match Table.get ProjectDB.id project_id (projects st) with
  | None => (Error 404 "Project not found", st)
  | Some row => committed_bare violates st (Delete (RProject row)) 204 Empty
  end.
Proof.
  unfold app, serve, delete_project. run.
  destruct (Table.get _ _ _) as [row|]; [|done]. by commit.
Qed.

Lemma add_user_run payload st :
  app violates (POST_users payload) st =
  let user := UserDB.mk (Table.next_id UserDB.id (users st))
                (UserCreate.name payload) (UserCreate.email payload)
                (UserCreate.age payload) (UserCreate.student_id payload) in
  committed violates st (Insert (RUser user)) "User already exists"
    201 (UserRead user).
Proof.
  unfold app, serve, add_user. run. commit.
  set (user := UserDB.mk _ _ _ _ _).
  change (Table.next_id UserDB.id (users st)) with (UserDB.id user).
  by rewrite get_insert.
Qed.

Lemma put_user_run user_id payload st :
  app violates (PUT_user user_id payload) st =
  match Table.get UserDB.id user_id (users st) with
  | None => (Error 404 "User not found", st)
  | Some user =>
      let user' := UserDB.mk (UserDB.id user) (UserUpdatePUT.name payload)
                     (UserUpdatePUT.email payload) (UserUpdatePUT.age payload)
                     (UserUpdatePUT.student_id payload) in
      committed violates st (Update (RUser user')) "User update failed"
        200 (UserRead user')
  end.
Proof.
  unfold app, serve, put_user, db_setattr_user. run.
  destruct (Table.get _ _ _) as [user|] eqn:Huser; [|done].
  pose proof (get_key _ _ _ _ Huser) as Hid. subst user_id.
  cbn -[flush Table.get]. repeat (rewrite Z.eqb_refl; cbn -[flush Table.get]).
  commit. by rewrite (get_put _ _ _ user).
Qed.

Lemma patch_user_run user_id payload st :
  app violates (PATCH_user user_id payload) st =
  match Table.get UserDB.id user_id (users st) with
  | None => (Error 404 "User not found", st)
  | Some user =>
      match dump_user_patch payload with
      | [] => (Response 200 (UserRead user), st)
      | _ =>
          let user' := patched_user user payload in
          committed violates st (Update (RUser user')) "User update failed"
            200 (UserRead user')
      end
  end.
Proof.
  unfold app, serve, patch_user. run.
  destruct (Table.get _ _ _) as [user|] eqn:Huser; [|done].
  pose proof (get_key _ _ _ _ Huser) as Hid. subst user_id.
  rewrite for_each_setattr_user by (by intros op []).
  rewrite setattr_dump_user.
  destruct (dump_user_patch payload) as [|kv data].
  - cbn -[Table.get]. by rewrite Huser.
  - commit. by rewrite (get_put _ _ _ user).
Qed.

Lemma delete_user_run user_id st :
  app violates (DELETE_user user_id) st =
  match Table.get UserDB.id user_id (users st) with
  | None => (Error 404 "User not found", st)
  | Some user => committed_bare violates st (Delete (RUser user)) 204 Empty
  end.
Proof.
  unfold app, serve, delete_user. run.
  destruct (Table.get _ _ _) as [user|]; [|done]. by commit.
Qed.

(** The read-only routes. *)

Lemma get_course_run course_id st :
  app violates (GET_course course_id) st =
  match Table.get CourseDB.id course_id (courses st) with
  | None => (Error 404 "Course not found", st)
  | Some row => (Response 200 (CourseRead row), st)
  end.
Proof.
  unfold app, serve, get_course. run. by destruct (Table.get _ _ _).
Qed.

Lemma get_user_run user_id st :
  app violates (GET_user user_id) st =
  match Table.get UserDB.id user_id (users st) with
  | None => (Error 404 "User not found", st)
  | Some user => (Response 200 (UserRead user), st)
  end.
Proof.
  unfold app, serve, get_user. run. by destruct (Table.get _ _ _).
Qed.

Lemma get_project_owner_run project_id st :
  app violates (GET_project project_id) st =
  match
    List.filter (fun p => ProjectDB.id p =? project_id) (projects st)
  with
  | [] => (Error 404 "Project not found", st)
  | [row] =>
      (Response 200
         (ProjectReadWithOwner row
            (Table.get UserDB.id (ProjectDB.owner_id row) (users st))), st)
  | _ => (InternalServerError MultipleResultsFound, st)
  end.
Proof.
  unfold app, serve, get_project_owner. run.
  by destruct (List.filter _ _) as [|row [|]].
Qed.

Lemma list_courses_run limit offset st :
  app violates (GET_courses limit offset) st =
  (Response 200
     (CourseList
        (sql_limit (default 10 limit)
           (sql_offset (default 0 offset)
              (order_by CourseDB.id (courses st))))), st).
Proof. done. Qed.

Lemma list_projects_run st :
  app violates GET_projects st =
  (Response 200 (ProjectList (order_by ProjectDB.id (projects st))), st).
Proof. done. Qed.

Lemma get_user_projects_run user_id st :
  app violates (GET_user_projects user_id) st =
  (Response 200
     (ProjectList
        (List.filter (fun p => ProjectDB.owner_id p =? user_id)
           (projects st))), st).
Proof. done. Qed.

End runs.

(** ** Facts shared by the results below *)

Lemma committed_not_404 {B : Type} violates st op msg code (body : B) d :
  fst (committed violates st op msg code body) <> Error 404 d.
Proof. unfold committed. by destruct (violates st op). Qed.

Lemma committed_accepted {B : Type} violates st op msg code (body : B) :
  violates st op = false ->
  committed violates st op msg code body = (Response code body, apply_op st op).
Proof. unfold committed. by intros ->. Qed.


Lemma patched_course_unset row payload :
  dump_course_patch payload = [] -> patched_course row payload = row.
Proof. by destruct row, payload as [[?|] [?|] [?|]]. Qed.

Lemma patched_project_unset row payload :
  dump_project_patch payload = [] -> patched_project row payload = row.
Proof. by destruct row, payload as [[?|] [?|] [?|]]. Qed.

Lemma patched_user_unset row payload :
  dump_user_patch payload = [] -> patched_user row payload = row.
Proof. by destruct row, payload as [[?|] [?|] [?|] [?|]]. Qed.

(** The uniqueness constraints never reject a delete. *)
Lemma unique_keys_delete st r : unique_keys st (Delete r) = false.
Proof. by destruct r. Qed.

(** The three requests that lead from the empty store to [orphaned]. *)
Lemma orphaned_reached :
  let st1 :=
    snd (app unique_keys (POST_users (UserCreate.mk "A" "a@x.com" 20 "S1"))
           empty_store) in
  let st2 :=
    snd (app unique_keys (POST_projects (ProjectCreate.mk "P" "d" 1)) st1) in
  app unique_keys (DELETE_user 1) st2 = (Response 204 Empty, orphaned).
Proof. by vm_compute. Qed.

(** * Results *)

(** C1. A commit wrapped by [commit_or_rollback]: when the store rejects a
    statement of the transaction, also after it accepted earlier ones, the
    helper raises [HTTPException 409] with exactly the message it was given
    and the session holds the store as it was, with nothing pending; when
    the store accepts every statement, nothing is raised and the session
    holds the store with all of them applied, so that closing the session
    leaves them in the store. *)
Theorem commit_or_rollback_conflict_safe
    (violates : Store -> Op -> bool) (error_msg : string) (s : Session) :
  (forall ops1 op ops2 st1,
      pending s = ops1 ++ op :: ops2 ->
      flush violates (stored s) ops1 = Some st1 ->
      violates st1 op = true ->
      commit_or_rollback violates error_msg s
      = (inl (HTTPException 409 error_msg), mkSession (stored s) []))
  /\ (forall st',
        flush violates (stored s) (pending s) = Some st' ->
        commit_or_rollback violates error_msg s = (inr tt, mkSession st' [])
        /\ stored (db_close (snd (commit_or_rollback violates error_msg s)))
           = st').
Proof.
  split.
  - intros ops1 op ops2 st1 Hp H1 H2.
    assert (Hf : flush violates (stored s) (pending s) = None).
    { apply flush_None. by exists ops1, op, ops2, st1. }
    run. by rewrite Hf.
  - intros st' Hf. run. by rewrite Hf.
Qed.

(** Two inserts whose second repeats a course code, and two that are
    fine. *)
Lemma commit_or_rollback_conflict_safe_witness :
  commit_or_rollback unique_keys "Course already exists"
    (mkSession (mkStore [] [cs101] [])
       [Insert (RCourse ma101); Insert (RCourse cs101_again)])
  = (inl (HTTPException 409 "Course already exists"),
     mkSession (mkStore [] [cs101] []) [])
  /\ commit_or_rollback unique_keys "Course already exists"
       (mkSession (mkStore [] [cs101] [])
          [Insert (RCourse ma101); Insert (RCourse ph101)])
     = (inr tt, mkSession (mkStore [] [cs101; ma101; ph101] []) []).
Proof.
  split.
  - apply (proj1 (commit_or_rollback_conflict_safe unique_keys _
                    (mkSession (mkStore [] [cs101] [])
                       [Insert (RCourse ma101); Insert (RCourse cs101_again)]))
             [Insert (RCourse ma101)] (Insert (RCourse cs101_again)) []
             (mkStore [] [cs101; ma101] [])); reflexivity.
  - apply (proj2 (commit_or_rollback_conflict_safe unique_keys _
                    (mkSession (mkStore [] [cs101] [])
                       [Insert (RCourse ma101); Insert (RCourse ph101)])) _).
    reflexivity.
Defined.

(** C2. [POST /api/projects] with an [owner_id] that no user has: the reply
    is 404 "User not found" whatever the store would say of the insert, the
    store is left as it was, and the project listing after the request is
    the listing before it. *)
Theorem create_project_owner_must_exist
    (violates : Store -> Op -> bool) (project : ProjectCreate.t) (st : Store) :
  Table.get UserDB.id (ProjectCreate.owner_id project) (users st) = None ->
  app violates (POST_projects project) st = (Error 404 "User not found", st)
  /\ fst (app violates GET_projects
            (snd (app violates (POST_projects project) st)))
     = fst (app violates GET_projects st).
Proof.
  intros Howner. rewrite create_project_run, Howner. done.
Qed.

Lemma create_project_owner_must_exist_witness :
  app unique_keys (POST_projects (ProjectCreate.mk "Q" "e" 999)) campus
  = (Error 404 "User not found", campus).
Proof.
  apply (create_project_owner_must_exist unique_keys
           (ProjectCreate.mk "Q" "e" 999) campus).
  reflexivity.
Defined.

(** C3. [PATCH /api/projects/{id}] on a project that exists, with a payload
    that sets [owner_id] to an id no user has, be it the project's current
    owner id or another: the reply is 404 "Owner not found" and the store
    is left as it was, so no field of the payload reaches the row. *)
Theorem patch_project_owner_must_exist
    (violates : Store -> Op -> bool) (project_id : Z)
    (payload : ProjectUpdatePATCH.t) (st : Store) (row : ProjectDB.t)
    (owner_id : Z) :
  Table.get ProjectDB.id project_id (projects st) = Some row ->
  ProjectUpdatePATCH.owner_id payload = Some owner_id ->
  Table.get UserDB.id owner_id (users st) = None ->
  app violates (PATCH_project project_id payload) st
  = (Error 404 "Owner not found", st)
  /\ Table.get ProjectDB.id project_id
       (projects (snd (app violates (PATCH_project project_id payload) st)))
     = Some row.
Proof.
  intros Hrow Hset Howner.
  rewrite patch_project_run, Hrow. cbv zeta. rewrite Hset, Howner. done.
Qed.

(** The scenario of section 8 (owner 999), and a patch that names the
    current owner of a project whose owner is gone. *)
Lemma patch_project_owner_must_exist_witness :
  app unique_keys
    (PATCH_project 1 (ProjectUpdatePATCH.mk (Some "Q") None (Some 999))) campus
  = (Error 404 "Owner not found", campus)
  /\ app unique_keys
       (PATCH_project 1 (ProjectUpdatePATCH.mk (Some "Q") None (Some 1)))
       orphaned
     = (Error 404 "Owner not found", orphaned).
Proof.
  split.
  - apply (patch_project_owner_must_exist unique_keys 1
             (ProjectUpdatePATCH.mk (Some "Q") None (Some 999)) campus
             thesis 999); reflexivity.
  - apply (patch_project_owner_must_exist unique_keys 1
             (ProjectUpdatePATCH.mk (Some "Q") None (Some 1)) orphaned
             thesis 1); reflexivity.
Defined.

(** C4. [PUT /api/projects/{id}] on a project that exists looks the owner up
    exactly when the payload's [owner_id] differs from the row's: the reply
    is 404 "Owner not found" if and only if the two differ and no user has
    the new id, and then the store is left as it was; when the two are
    equal the update goes to the commit without any lookup, whether or not
    a user with that id exists. *)
Theorem put_project_owner_check
    (violates : Store -> Op -> bool) (project_id : Z)
    (payload : ProjectUpdatePUT.t) (st : Store) (row : ProjectDB.t) :
  Table.get ProjectDB.id project_id (projects st) = Some row ->
  let reply := app violates (PUT_project project_id payload) st in
  let row' := ProjectDB.mk (ProjectDB.id row) (ProjectUpdatePUT.name payload)
                (ProjectUpdatePUT.description payload)
                (ProjectUpdatePUT.owner_id payload) in
  let absent :=
    Table.get UserDB.id (ProjectUpdatePUT.owner_id payload) (users st) = None in
  (fst reply = Error 404 "Owner not found" <->
   ProjectUpdatePUT.owner_id payload <> ProjectDB.owner_id row /\ absent)
  /\ (ProjectUpdatePUT.owner_id payload <> ProjectDB.owner_id row ->
      absent -> reply = (Error 404 "Owner not found", st))
  /\ (ProjectUpdatePUT.owner_id payload = ProjectDB.owner_id row ->
      reply = committed violates st (Update (RProject row'))
                "Project update failed" 200 (ProjectRead row')).
Proof.
  intros Hrow reply row' absent. subst reply absent.
  rewrite put_project_run, Hrow. cbv zeta. fold row'.
  destruct (Z.eqb_spec (ProjectUpdatePUT.owner_id payload)
              (ProjectDB.owner_id row)) as [Heq|Hne]; cbn [negb].
  - split; [|done]. split; [|by intros []].
    intros H. by apply committed_not_404 in H.
  - destruct (Table.get UserDB.id _ _) as [owner|].
    + split; [|done]. split; [|by intros [_ ?]].
      intros H. by apply committed_not_404 in H.
    + done.
Qed.

(** A PUT that names a missing new owner, and a PUT that keeps the owner id
    of a project whose owner is gone. *)
Lemma put_project_owner_check_witness :
  app unique_keys (PUT_project 1 (ProjectUpdatePUT.mk "Q" "e" 999)) campus
  = (Error 404 "Owner not found", campus)
  /\ app unique_keys (PUT_project 1 (ProjectUpdatePUT.mk "Q" "e" 1)) orphaned
     = (Response 200 (ProjectRead (ProjectDB.mk 1 "Q" "e" 1)),
        mkStore [] [] [ProjectDB.mk 1 "Q" "e" 1]).
Proof.
  split.
  - apply (put_project_owner_check unique_keys 1
             (ProjectUpdatePUT.mk "Q" "e" 999) campus thesis);
      [reflexivity | discriminate | reflexivity].
  - refine (eq_trans
              (proj2 (proj2
                 (put_project_owner_check unique_keys 1
                    (ProjectUpdatePUT.mk "Q" "e" 1) orphaned thesis
                    eq_refl)) eq_refl) _).
    reflexivity.
Defined.

(** C5. A PATCH on a row that exists, for courses, projects and users alike:
    a payload that sets no field is answered 200 with the row as it was and
    the store untouched; a payload whose update the store accepts (and, for
    a project, whose [owner_id], if set, is the id of a user) is answered
    200 with the patched row, which has the payload's value in every field
    the payload sets and the row's own value in every field it leaves
    unset, and that is the row then stored under the id. *)
Theorem patch_touches_only_supplied_fields
    (violates : Store -> Op -> bool) (st : Store) :
  (forall course_id payload row,
      Table.get CourseDB.id course_id (courses st) = Some row ->
      app violates
        (PATCH_course course_id (CourseUpdatePATCH.mk None None None)) st
      = (Response 200 (CourseRead row), st)
      /\ (violates st (Update (RCourse (patched_course row payload))) = false ->
          let reply := app violates (PATCH_course course_id payload) st in
          fst reply = Response 200 (CourseRead (patched_course row payload))
          /\ Table.get CourseDB.id course_id (courses (snd reply))
             = Some (patched_course row payload)))
  /\ (forall project_id payload row,
        Table.get ProjectDB.id project_id (projects st) = Some row ->
        app violates
          (PATCH_project project_id (ProjectUpdatePATCH.mk None None None)) st
        = (Response 200 (ProjectRead row), st)
        /\ ((forall owner_id,
                ProjectUpdatePATCH.owner_id payload = Some owner_id ->
                Table.get UserDB.id owner_id (users st) <> None) ->
            violates st (Update (RProject (patched_project row payload)))
            = false ->
            let reply := app violates (PATCH_project project_id payload) st in
            fst reply
            = Response 200 (ProjectRead (patched_project row payload))
            /\ Table.get ProjectDB.id project_id (projects (snd reply))
               = Some (patched_project row payload)))
  /\ (forall user_id payload row,
        Table.get UserDB.id user_id (users st) = Some row ->
        app violates
          (PATCH_user user_id (UserUpdatePATCH.mk None None None None)) st
        = (Response 200 (UserRead row), st)
        /\ (violates st (Update (RUser (patched_user row payload))) = false ->
            let reply := app violates (PATCH_user user_id payload) st in
            fst reply = Response 200 (UserRead (patched_user row payload))
            /\ Table.get UserDB.id user_id (users (snd reply))
               = Some (patched_user row payload))).
Proof.
  split; [|split].
  - intros course_id payload row Hrow.
    pose proof (get_key _ _ _ _ Hrow) as Hid.
    split; [by rewrite patch_course_run, Hrow|].
    intros Hok reply. subst reply. rewrite patch_course_run, Hrow.
    destruct (dump_course_patch payload) as [|kv data] eqn:Hdump.
    + by rewrite patched_course_unset.
    + cbv zeta. rewrite committed_accepted by done.
      split; [done|]. by apply get_put with row.
  - intros project_id payload row Hrow.
    pose proof (get_key _ _ _ _ Hrow) as Hid.
    split; [by rewrite patch_project_run, Hrow|].
    intros Howner Hok reply. subst reply.
    rewrite patch_project_run, Hrow. cbv zeta.
    assert (Hupdate :
      let reply :=
        match dump_project_patch payload with
        | [] => (Response 200 (ProjectRead row), st)
        | _ =>
            committed violates st
              (Update (RProject (patched_project row payload)))
              "Project update failed" 200
              (ProjectRead (patched_project row payload))
        end in
      fst reply = Response 200 (ProjectRead (patched_project row payload))
      /\ Table.get ProjectDB.id project_id (projects (snd reply))
         = Some (patched_project row payload)).
    { destruct (dump_project_patch payload) as [|kv data] eqn:Hdump.
      - by rewrite patched_project_unset.
      - cbv zeta. rewrite committed_accepted by done.
        split; [done|]. by apply get_put with row. }
    destruct (ProjectUpdatePATCH.owner_id payload) as [owner_id|]; [|done].
    specialize (Howner owner_id eq_refl).
    by destruct (Table.get UserDB.id owner_id (users st)).
  - intros user_id payload row Hrow.
    pose proof (get_key _ _ _ _ Hrow) as Hid.
    split; [by rewrite patch_user_run, Hrow|].
    intros Hok reply. subst reply. rewrite patch_user_run, Hrow.
    destruct (dump_user_patch payload) as [|kv data] eqn:Hdump.
    + by rewrite patched_user_unset.
    + cbv zeta. rewrite committed_accepted by done.
      split; [done|]. by apply get_put with row.
Qed.

(** Renaming a course, moving nothing else; an empty PATCH of a user. *)
Lemma patch_touches_only_supplied_fields_witness :
  fst (app unique_keys
         (PATCH_course 1 (CourseUpdatePATCH.mk None (Some "Coding") None))
         campus)
  = Response 200 (CourseRead (CourseDB.mk 1 "CS101" "Coding" 5))
  /\ app unique_keys
       (PATCH_user 1 (UserUpdatePATCH.mk None None None None)) campus
     = (Response 200 (UserRead alice), campus).
Proof.
  split.
  - apply (proj1 (patch_touches_only_supplied_fields unique_keys campus)
             1 (CourseUpdatePATCH.mk None (Some "Coding") None) cs101);
      reflexivity.
  - apply (proj2 (proj2
             (patch_touches_only_supplied_fields unique_keys campus))
             1 (UserUpdatePATCH.mk None None None None) alice).
    reflexivity.
Defined.

(** C6, as the code has it.  Every POST, PUT and PATCH handler commits
    through [commit_or_rollback]: its reply is never an unhandled server
    error, and the only effect a rejection by the store can have on it is a
    409 reply with the store exactly as it was.  The three DELETE handlers
    call [db.commit()] themselves: a rejection of the delete is not
    translated and leaves the handler as an [IntegrityError]. *)
Theorem post_put_patch_conflict_safe
    (violates : Store -> Op -> bool) (st : Store) :
  (forall req,
      is_post_put_patch req = true ->
      let reply := app violates req st in
      (forall e, fst reply <> InternalServerError e)
      /\ (reply = app accepts_all req st
          \/ exists error_msg, reply = (Error 409 error_msg, st)))
  /\ (forall course_id row,
        Table.get CourseDB.id course_id (courses st) = Some row ->
        app violates (DELETE_course course_id) st
        = committed_bare violates st (Delete (RCourse row)) 204 Empty)
  /\ (forall project_id row,
        Table.get ProjectDB.id project_id (projects st) = Some row ->
        app violates (DELETE_project project_id) st
        = committed_bare violates st (Delete (RProject row)) 204 Empty)
  /\ (forall user_id user,
        Table.get UserDB.id user_id (users st) = Some user ->
        app violates (DELETE_user user_id) st
        = committed_bare violates st (Delete (RUser user)) 204 Empty).
Proof.
  split; [|split; [|split]].
  - intros req Hreq reply. subst reply.
    destruct req; try discriminate Hreq;
      rewrite ?create_course_run, ?put_course_run, ?patch_course_run,
        ?create_project_run, ?put_project_run, ?patch_project_run,
        ?create_user_project_run, ?add_user_run, ?put_user_run,
        ?patch_user_run;
      cbv zeta; unfold committed, accepts_all;
      repeat match goal with
        | |- context [match ?x with _ => _ end] => destruct x
        end;
      (split; [done | eauto]).
  - intros course_id row Hrow. by rewrite delete_course_run, Hrow.
  - intros project_id row Hrow. by rewrite delete_project_run, Hrow.
  - intros user_id user Huser. by rewrite delete_user_run, Huser.
Qed.

(** A duplicate course code is a 409 and nothing is stored; deleting a
    course goes through. *)
Lemma post_put_patch_conflict_safe_witness :
  app unique_keys (POST_courses (CourseCreate.mk "CS101" "Programming" 5))
    campus
  = (Error 409 "Course already exists", campus)
  /\ app unique_keys (DELETE_course 2) campus
     = (Response 204 Empty, mkStore [alice] [cs101] [thesis]).
Proof.
  split.
  - destruct (proj2 (proj1 (post_put_patch_conflict_safe unique_keys campus)
                       (POST_courses (CourseCreate.mk "CS101" "Programming" 5))
                       eq_refl)) as [H|[error_msg H]].
    + discriminate H.
    + reflexivity.
  - refine (eq_trans
              (proj1 (proj2 (post_put_patch_conflict_safe unique_keys campus))
                 2 ma101 eq_refl) _).
    reflexivity.
Defined.

(** C6, as stated, fails on the DELETE handlers: on a store that enforces
    the foreign key of [Project.owner_id], deleting a user who owns a
    project is rejected at the commit, and the client gets a server error,
    not a 409. *)
Lemma delete_user_violation_unhandled :
  flush foreign_keys campus [Delete (RUser alice)] = None
  /\ app foreign_keys (DELETE_user 1) campus
     = (InternalServerError IntegrityError, campus)
  /\ status (fst (app foreign_keys (DELETE_user 1) campus)) = 500.
Proof. by vm_compute. Qed.




(** C8. [GET /api/courses]: [limit] is 10 and [offset] is 0 when the query
    leaves them out; the reply is always 200 and the store is untouched;
    the body is cut from the stored courses in ascending order of id, the
    first [offset] skipped and at most [limit] kept; an offset at or past
    the end gives the empty list. *)
Theorem list_courses_window
    (violates : Store -> Op -> bool) (st : Store) (limit offset : option Z) :
  let sorted := order_by CourseDB.id (courses st) in
  let rows :=
    sql_limit (default 10 limit) (sql_offset (default 0 offset) sorted) in
  app violates (GET_courses limit offset) st
  = (Response 200 (CourseList rows), st)
  /\ app violates (GET_courses None None) st
     = app violates (GET_courses (Some 10) (Some 0)) st
  /\ StronglySorted (fun a b => CourseDB.id a <= CourseDB.id b) sorted
  /\ sorted ≡ₚ courses st
  /\ (0 <= default 10 limit ->
      rows = take (Z.to_nat (default 10 limit))
               (drop (Z.to_nat (default 0 offset)) sorted))
  /\ (Z.of_nat (length (courses st)) <= default 0 offset -> rows = []).
Proof.
  intros sorted rows. split; [done|]. split; [done|].
  assert (Hperm : sorted ≡ₚ courses st) by apply merge_sort_Permutation.
  split; [|split; [done|split]].
  - apply (StronglySorted_merge_sort (id_le CourseDB.id)).
  - intros Hlimit. subst rows. unfold sql_limit, sql_offset.
    destruct (Z.ltb_spec (default 10 limit) 0); [lia|done].
  - intros Hoffset. subst rows. unfold sql_limit, sql_offset.
    rewrite drop_ge; [rewrite take_nil; by destruct (_ <? _)|].
    rewrite (Permutation_length Hperm). lia.
Qed.

(** The second of two courses, and a window past the end. *)
Lemma list_courses_window_witness :
  app unique_keys (GET_courses (Some 1) (Some 1)) campus
  = (Response 200 (CourseList [ma101]), campus)
  /\ sql_limit 10 (sql_offset 2 (order_by CourseDB.id (courses campus))) = [].
Proof.
  destruct (list_courses_window unique_keys campus (Some 1) (Some 1))
    as (Hreply & _ & _ & _ & Hwindow & _).
  destruct (list_courses_window unique_keys campus None (Some 2))
    as (_ & _ & _ & _ & _ & Hend).
  split.
  - rewrite Hreply. rewrite Hwindow; [reflexivity|]. simpl. lia.
  - apply Hend. simpl. lia.
Defined.

(** C9, as the code has it.  [GET /api/users/{uid}/projects] is always
    answered 200, with exactly the stored projects whose [owner_id] is
    [uid]; the users table plays no part in the reply; the body is empty
    when no stored project has that owner. *)
Theorem get_user_projects_by_owner
    (violates : Store -> Op -> bool) (st : Store) (user_id : Z) :
  let owned :=
    List.filter (fun p => ProjectDB.owner_id p =? user_id) (projects st) in
  app violates (GET_user_projects user_id) st
  = (Response 200 (ProjectList owned), st)
  /\ (forall p,
        In p owned <-> In p (projects st) /\ ProjectDB.owner_id p = user_id)
  /\ (forall us,
        fst (app violates (GET_user_projects user_id)
               (mkStore us (courses st) (projects st)))
        = Response 200 (ProjectList owned))
  /\ ((forall p, In p (projects st) -> ProjectDB.owner_id p <> user_id) ->
      owned = []).
Proof.
  intros owned. split; [done|]. split; [|split; [done|]].
  - intros p. subst owned. rewrite filter_In. by rewrite Z.eqb_eq.
  - intros Hnone. subst owned.
    induction (projects st) as [|p ps IH]; [done|]. simpl.
    destruct (Z.eqb_spec (ProjectDB.owner_id p) user_id) as [Heq|_].
    + by destruct (Hnone p (or_introl eq_refl)).
    + apply IH. intros q Hq. apply Hnone. by right.
Qed.

(** A user id that nobody has and no project names. *)
Lemma get_user_projects_by_owner_witness :
  app unique_keys (GET_user_projects 2) campus
  = (Response 200 (ProjectList []), campus).
Proof.
  destruct (get_user_projects_by_owner unique_keys campus 2)
    as (Hreply & _ & _ & Hempty).
  rewrite Hreply, Hempty; [reflexivity|].
  intros p [<-|[]]. discriminate.
Defined.

(** C9, as stated, fails when the unknown user id is still named by a
    project: after user 1 was created, given a project and deleted, no
    user 1 exists, and the listing for user 1 is not empty. *)
Lemma unknown_user_projects_not_empty :
  app unique_keys (GET_user 1) orphaned
  = (Error 404 "User not found", orphaned)
  /\ app unique_keys (GET_user_projects 1) orphaned
     = (Response 200 (ProjectList [thesis]), orphaned).
Proof. by vm_compute. Qed.

(** C10. A [DELETE /api/users/{id}] answered 204 has removed the rows of
    that id from the users table and nothing else: courses and projects are
    as they were, and every project the user owned is still stored, with an
    [owner_id] that no user has any more. *)
Theorem delete_user_leaves_projects
    (violates : Store -> Op -> bool) (st st' : Store) (user_id : Z) :
  app violates (DELETE_user user_id) st = (Response 204 Empty, st') ->
  users st' = Table.remove UserDB.id user_id (users st)
  /\ courses st' = courses st
  /\ projects st' = projects st
  /\ (forall p,
        In p (projects st) -> ProjectDB.owner_id p = user_id ->
        In p (projects st')
        /\ Table.get UserDB.id (ProjectDB.owner_id p) (users st') = None).
Proof.
  rewrite delete_user_run.
  destruct (Table.get _ _ _) as [user|] eqn:Huser; [|done].
  pose proof (get_key _ _ _ _ Huser) as Hid.
  unfold committed_bare. destruct (violates _ _); [done|].
  intros [= <-]. cbn [apply_op users courses projects]. rewrite Hid.
  do 3 (split; [done|]). intros p Hp ->. split; [done|]. apply get_remove.
Qed.

(** Deleting the owner of a project: the project stays, its owner is
    gone. *)
Lemma delete_user_leaves_projects_witness :
  In thesis (projects campus_without_alice)
  /\ Table.get UserDB.id (ProjectDB.owner_id thesis)
       (users campus_without_alice) = None.
Proof.
  apply (proj2 (proj2 (proj2
           (delete_user_leaves_projects unique_keys campus
              campus_without_alice 1 eq_refl))) thesis);
    [left|]; reflexivity.
Defined.

(** * Further properties of the handlers *)

(** ** More on tables *)

Section more_table_facts.
Context {A : Type} (key : A -> Z).

Lemma get_In k t r : Table.get key k t = Some r -> In r t.
Proof. unfold Table.get. intros H. by apply List.find_some in H as [H _]. Qed.

Lemma get_None k t :
  Table.get key k t = None <-> forall r, In r t -> key r <> k.
Proof.
  unfold Table.get. split.
  - intros H r Hr Hk. pose proof (List.find_none _ _ H r Hr) as Hf.
    simpl in Hf. lia.
  - intros H. induction t as [|x t IH]; simpl; [done|].
    destruct (Z.eqb_spec (key x) k) as [Hk|_].
    + by destruct (H x (or_introl eq_refl)).
    + apply IH. intros r Hr. apply H. by right.
Qed.

Lemma get_put_ne k t r' :
  key r' <> k -> Table.get key k (Table.put key r' t) = Table.get key k t.
Proof.
  unfold Table.get, Table.put. intros Hne.
  induction t as [|x t IH]; simpl; [done|].
  destruct (Z.eqb_spec (key x) (key r')) as [Heq|_].
  - destruct (Z.eqb_spec (key r') k); [done|].
    destruct (Z.eqb_spec (key x) k); [lia|done].
  - by rewrite IH.
Qed.

Lemma get_remove_ne k k' t :
  k <> k' -> Table.get key k (Table.remove key k' t) = Table.get key k t.
Proof.
  unfold Table.get, Table.remove. intros Hne.
  induction t as [|x t IH]; simpl; [done|].
  destruct (Z.eqb_spec (key x) k') as [Heq|_]; simpl.
  - destruct (Z.eqb_spec (key x) k); [lia|done].
  - by rewrite IH.
Qed.

Lemma get_app_Some k t r x :
  Table.get key k t = Some r -> Table.get key k (t ++ [x]) = Some r.
Proof.
  unfold Table.get. induction t as [|y t IH]; simpl; [done|].
  by destruct (key y =? k).
Qed.

Lemma get_next_id t : Table.get key (Table.next_id key t) t = None.
Proof.
  apply get_None. intros r Hr. pose proof (next_id_above key t r Hr). lia.
Qed.

Lemma put_put r t :
  Table.put key r (Table.put key r t) = Table.put key r t.
Proof.
  unfold Table.put. induction t as [|x t IH]; simpl; [done|].
  rewrite IH. f_equal.
  destruct (Z.eqb_spec (key x) (key r)) as [Heq|Hne].
  - by rewrite Z.eqb_refl.
  - by destruct (Z.eqb_spec (key x) (key r)).
Qed.

Lemma put_key r t x : In x (Table.put key r t) -> key x = key r -> x = r.
Proof.
  unfold Table.put. rewrite in_map_iff. intros (y & <- & _).
  destruct (Z.eqb_spec (key y) (key r)); [done|]. intros Hk. by destruct n.
Qed.

Lemma select_insert t r :
  key r = Table.next_id key t ->
  List.filter (fun x => key x =? key r) (t ++ [r]) = [r].
Proof.
  intros Hr.
  assert (Hlt : forall x, In x t -> key x < key r).
  { intros x Hx. rewrite Hr. by apply next_id_above. }
  clear Hr. induction t as [|x t IH]; simpl.
  - by rewrite Z.eqb_refl.
  - destruct (Z.eqb_spec (key x) (key r)) as [Heq|_].
    + specialize (Hlt x (or_introl eq_refl)). lia.
    + apply IH. intros y Hy. apply Hlt. by right.
Qed.

End more_table_facts.

(** ** Creating *)

(** X1. A [POST /api/courses] answered 201: the row in the reply has the
    payload's code, name and credits under an id no course had before, a
    GET on that id returns the same row, and every course that could be
    fetched before can still be fetched. *)
Theorem create_course_then_get
    (violates : Store -> Op -> bool) (course : CourseCreate.t)
    (st st' : Store) (row : CourseDB.t) :
  app violates (POST_courses course) st
  = (Response 201 (CourseRead row), st') ->
  CourseDB.code row = CourseCreate.code course
  /\ CourseDB.name row = CourseCreate.name course
  /\ CourseDB.credits row = CourseCreate.credits course
  /\ Table.get CourseDB.id (CourseDB.id row) (courses st) = None
  /\ app violates (GET_course (CourseDB.id row)) st'
     = (Response 200 (CourseRead row), st')
  /\ (forall k r,
        Table.get CourseDB.id k (courses st) = Some r ->
        Table.get CourseDB.id k (courses st') = Some r).
Proof.
  rewrite create_course_run. cbv zeta. unfold committed.
  destruct (violates _ _); [done|]. intros [= <- <-].
  cbn [CourseDB.code CourseDB.name CourseDB.credits CourseDB.id apply_op
       courses].
  do 3 (split; [done|]). split; [apply get_next_id|]. split.
  - rewrite get_course_run. cbn [courses].
    set (row := CourseDB.mk _ _ _ _).
    change (Table.next_id CourseDB.id (courses st)) with (CourseDB.id row).
    by rewrite get_insert.
  - intros k r. apply get_app_Some.
Qed.

Lemma create_course_then_get_witness :
  app unique_keys (GET_course 3)
    (mkStore [alice] [cs101; ma101; ph101] [thesis])
  = (Response 200 (CourseRead ph101),
     mkStore [alice] [cs101; ma101; ph101] [thesis]).
Proof.
  apply (create_course_then_get unique_keys
           (CourseCreate.mk "PH101" "Physics" 5) campus
           (mkStore [alice] [cs101; ma101; ph101] [thesis]) ph101).
  reflexivity.
Defined.

(** X2. A [POST /api/users] answered 201: the row in the reply has the
    payload's four fields under an id no user had before, a GET on that id
    returns the same row, and every user that could be fetched before can
    still be fetched. *)
Theorem add_user_then_get
    (violates : Store -> Op -> bool) (payload : UserCreate.t)
    (st st' : Store) (user : UserDB.t) :
  app violates (POST_users payload) st = (Response 201 (UserRead user), st') ->
  UserDB.name user = UserCreate.name payload
  /\ UserDB.email user = UserCreate.email payload
  /\ UserDB.age user = UserCreate.age payload
  /\ UserDB.student_id user = UserCreate.student_id payload
  /\ Table.get UserDB.id (UserDB.id user) (users st) = None
  /\ app violates (GET_user (UserDB.id user)) st'
     = (Response 200 (UserRead user), st')
  /\ (forall k r,
        Table.get UserDB.id k (users st) = Some r ->
        Table.get UserDB.id k (users st') = Some r).
Proof.
  rewrite add_user_run. cbv zeta. unfold committed.
  destruct (violates _ _); [done|]. intros [= <- <-].
  cbn [UserDB.name UserDB.email UserDB.age UserDB.student_id UserDB.id
       apply_op users].
  do 4 (split; [done|]). split; [apply get_next_id|]. split.
  - rewrite get_user_run. cbn [users].
    set (user := UserDB.mk _ _ _ _ _).
    change (Table.next_id UserDB.id (users st)) with (UserDB.id user).
    by rewrite get_insert.
  - intros k r. apply get_app_Some.
Qed.

Lemma add_user_then_get_witness :
  app unique_keys (GET_user 1) (mkStore [alice] [] [])
  = (Response 200 (UserRead alice), mkStore [alice] [] []).
Proof.
  apply (add_user_then_get unique_keys (UserCreate.mk "A" "a@x.com" 20 "S1")
           empty_store (mkStore [alice] [] []) alice).
  reflexivity.
Defined.

(** X3. The nested route [POST /api/users/{uid}/projects] behaves, reply
    and store, as [POST /api/projects] with the same name and description
    and [owner_id] set to the path's user id. *)
Theorem create_user_project_as_create_project
    (violates : Store -> Op -> bool) (user_id : Z)
    (project : ProjectCreateForUser.t) (st : Store) :
  app violates (POST_user_projects user_id project) st
  = app violates
      (POST_projects
         (ProjectCreate.mk (ProjectCreateForUser.name project)
            (ProjectCreateForUser.description project) user_id)) st.
Proof. by rewrite create_user_project_run, create_project_run. Qed.

(** X4. A [POST /api/projects] answered 201: the row has the payload's
    fields under an id no project had before, its owner is a stored user,
    [GET /api/projects/{id}] returns the row with that owner embedded, and
    the owner's project listing is the former listing followed by the new
    row. *)
Theorem create_project_then_get
    (violates : Store -> Op -> bool) (project : ProjectCreate.t)
    (st st' : Store) (row : ProjectDB.t) :
  app violates (POST_projects project) st
  = (Response 201 (ProjectRead row), st') ->
  ProjectDB.name row = ProjectCreate.name project
  /\ ProjectDB.description row = ProjectCreate.description project
  /\ ProjectDB.owner_id row = ProjectCreate.owner_id project
  /\ Table.get ProjectDB.id (ProjectDB.id row) (projects st) = None
  /\ (exists owner,
        Table.get UserDB.id (ProjectDB.owner_id row) (users st) = Some owner
        /\ app violates (GET_project (ProjectDB.id row)) st'
           = (Response 200 (ProjectReadWithOwner row (Some owner)), st'))
  /\ (exists owned,
        app violates (GET_user_projects (ProjectDB.owner_id row)) st
        = (Response 200 (ProjectList owned), st)
        /\ app violates (GET_user_projects (ProjectDB.owner_id row)) st'
           = (Response 200 (ProjectList (owned ++ [row])), st')).
Proof.
  rewrite create_project_run.
  destruct (Table.get UserDB.id _ _) as [owner|] eqn:Howner; [|done].
  cbv zeta. unfold committed.
  destruct (violates _ _); [done|]. intros [= <- <-].
  cbn [ProjectDB.name ProjectDB.description ProjectDB.owner_id ProjectDB.id
       apply_op users projects].
  do 3 (split; [done|]). split; [apply get_next_id|]. split.
  - exists owner. split; [done|].
    rewrite get_project_owner_run. cbn [projects users].
    set (row := ProjectDB.mk _ _ _ _).
    change (Table.next_id ProjectDB.id (projects st)) with (ProjectDB.id row).
    rewrite select_insert by done. subst row. cbn [ProjectDB.owner_id].
    by rewrite Howner.
  - eexists. split; [apply get_user_projects_run|].
    rewrite get_user_projects_run. cbn [projects].
    rewrite List.filter_app. simpl. by rewrite Z.eqb_refl.
Qed.

Lemma create_project_then_get_witness :
  app unique_keys (GET_user_projects 1)
    (mkStore [alice] [] [thesis])
  = (Response 200 (ProjectList ([] ++ [thesis])), mkStore [alice] [] [thesis]).
Proof.
  destruct (create_project_then_get unique_keys (ProjectCreate.mk "P" "d" 1)
              (mkStore [alice] [] []) (mkStore [alice] [] [thesis]) thesis
              eq_refl)
    as (_ & _ & _ & _ & _ & owned & Hbefore & Hafter).
  injection Hbefore as <-. exact Hafter.
Defined.

(** ** Replacing *)

(** X5. [PUT /api/courses/{id}]: the reply is 404 "Course not found" exactly
    when no stored course has the id.  A reply of 200 carries the row made
    of the id and the payload's three fields; that row is then stored under
    the id, every other id fetches what it fetched before, and users and
    projects are as they were. *)
Theorem put_course_overwrites
    (violates : Store -> Op -> bool) (course_id : Z)
    (payload : CourseUpdatePUT.t) (st : Store) :
  (fst (app violates (PUT_course course_id payload) st)
   = Error 404 "Course not found"
   <-> forall r, In r (courses st) -> CourseDB.id r <> course_id)
  /\ (forall row' st',
        app violates (PUT_course course_id payload) st
        = (Response 200 (CourseRead row'), st') ->
        row' = CourseDB.mk course_id (CourseUpdatePUT.code payload)
                 (CourseUpdatePUT.name payload)
                 (CourseUpdatePUT.credits payload)
        /\ Table.get CourseDB.id course_id (courses st') = Some row'
        /\ (forall k, k <> course_id ->
              Table.get CourseDB.id k (courses st')
              = Table.get CourseDB.id k (courses st))
        /\ users st' = users st /\ projects st' = projects st).
Proof.
  rewrite put_course_run, <- get_None.
  destruct (Table.get _ _ _) as [row|] eqn:Hrow.
  - pose proof (get_key _ _ _ _ Hrow) as Hid. cbv zeta. split.
    + split; [|done]. intros H. by apply committed_not_404 in H.
    + unfold committed. destruct (violates _ _); [done|].
      intros row' st' [= <- <-]. cbn [apply_op users courses projects].
      rewrite Hid. split; [done|]. split; [by apply get_put with row|].
      split; [|done]. intros k Hk. by apply get_put_ne.
  - split; [done|]. intros row' st' [=].
Qed.

Lemma put_course_overwrites_witness :
  Table.get CourseDB.id 1
    (courses (mkStore [alice] [CourseDB.mk 1 "CS102" "Coding" 10; ma101]
                [thesis]))
  = Some (CourseDB.mk 1 "CS102" "Coding" 10).
Proof.
  apply (proj2 (put_course_overwrites unique_keys 1
                  (CourseUpdatePUT.mk "CS102" "Coding" 10) campus)
           (CourseDB.mk 1 "CS102" "Coding" 10)).
  reflexivity.
Defined.

(** X6. [PUT /api/users/{id}]: the reply is 404 "User not found" exactly
    when no stored user has the id.  A reply of 200 carries the row made of
    the id and the payload's four fields; that row is then stored under the
    id, every other id fetches what it fetched before, and courses and
    projects are as they were. *)
Theorem put_user_overwrites
    (violates : Store -> Op -> bool) (user_id : Z)
    (payload : UserUpdatePUT.t) (st : Store) :
  (fst (app violates (PUT_user user_id payload) st)
   = Error 404 "User not found"
   <-> forall r, In r (users st) -> UserDB.id r <> user_id)
  /\ (forall user' st',
        app violates (PUT_user user_id payload) st
        = (Response 200 (UserRead user'), st') ->
        user' = UserDB.mk user_id (UserUpdatePUT.name payload)
                  (UserUpdatePUT.email payload) (UserUpdatePUT.age payload)
                  (UserUpdatePUT.student_id payload)
        /\ Table.get UserDB.id user_id (users st') = Some user'
        /\ (forall k, k <> user_id ->
              Table.get UserDB.id k (users st')
              = Table.get UserDB.id k (users st))
        /\ courses st' = courses st /\ projects st' = projects st).
Proof.
  rewrite put_user_run, <- get_None.
  destruct (Table.get _ _ _) as [user|] eqn:Huser.
  - pose proof (get_key _ _ _ _ Huser) as Hid. cbv zeta. split.
    + split; [|done]. intros H. by apply committed_not_404 in H.
    + unfold committed. destruct (violates _ _); [done|].
      intros user' st' [= <- <-]. cbn [apply_op users courses projects].
      rewrite Hid. split; [done|]. split; [by apply get_put with user|].
      split; [|done]. intros k Hk. by apply get_put_ne.
  - split; [done|]. intros user' st' [=].
Qed.

Lemma put_user_overwrites_witness :
  Table.get UserDB.id 1
    (users (mkStore [UserDB.mk 1 "B" "b@x.com" 21 "S2"] [cs101; ma101]
              [thesis]))
  = Some (UserDB.mk 1 "B" "b@x.com" 21 "S2").
Proof.
  apply (proj2 (put_user_overwrites unique_keys 1
                  (UserUpdatePUT.mk "B" "b@x.com" 21 "S2") campus)
           (UserDB.mk 1 "B" "b@x.com" 21 "S2")).
  reflexivity.
Defined.

(** X7. [PUT /api/projects/{id}] answered 200: the row in the reply is made
    of the id and the payload's three fields and is then stored under the
    id; every other project id fetches what it fetched before; users and
    courses are as they were; and the new owner id is the old one or the id
    of a stored user. *)
Theorem put_project_overwrites
    (violates : Store -> Op -> bool) (project_id : Z)
    (payload : ProjectUpdatePUT.t) (st st' : Store) (row row' : ProjectDB.t) :
  Table.get ProjectDB.id project_id (projects st) = Some row ->
  app violates (PUT_project project_id payload) st
  = (Response 200 (ProjectRead row'), st') ->
  row' = ProjectDB.mk project_id (ProjectUpdatePUT.name payload)
           (ProjectUpdatePUT.description payload)
           (ProjectUpdatePUT.owner_id payload)
  /\ Table.get ProjectDB.id project_id (projects st') = Some row'
  /\ (forall k, k <> project_id ->
        Table.get ProjectDB.id k (projects st')
        = Table.get ProjectDB.id k (projects st))
  /\ users st' = users st /\ courses st' = courses st
  /\ (ProjectDB.owner_id row' = ProjectDB.owner_id row
      \/ Table.get UserDB.id (ProjectDB.owner_id row') (users st) <> None).
Proof.
  intros Hrow. pose proof (get_key _ _ _ _ Hrow) as Hid.
  rewrite put_project_run, Hrow. cbv zeta.
  assert (Hupdate :
    committed violates st
      (Update (RProject
         (ProjectDB.mk (ProjectDB.id row) (ProjectUpdatePUT.name payload)
            (ProjectUpdatePUT.description payload)
            (ProjectUpdatePUT.owner_id payload))))
      "Project update failed" 200
      (ProjectRead
         (ProjectDB.mk (ProjectDB.id row) (ProjectUpdatePUT.name payload)
            (ProjectUpdatePUT.description payload)
            (ProjectUpdatePUT.owner_id payload)))
    = (Response 200 (ProjectRead row'), st') ->
    row' = ProjectDB.mk project_id (ProjectUpdatePUT.name payload)
             (ProjectUpdatePUT.description payload)
             (ProjectUpdatePUT.owner_id payload)
    /\ Table.get ProjectDB.id project_id (projects st') = Some row'
    /\ (forall k, k <> project_id ->
          Table.get ProjectDB.id k (projects st')
          = Table.get ProjectDB.id k (projects st))
    /\ users st' = users st /\ courses st' = courses st).
  { unfold committed. destruct (violates _ _); [done|].
    intros [= <- <-]. cbn [apply_op users courses projects].
    rewrite Hid. split; [done|]. split; [by apply get_put with row|].
    split; [|done]. intros k Hk. by apply get_put_ne. }
  destruct (Z.eqb_spec (ProjectUpdatePUT.owner_id payload)
              (ProjectDB.owner_id row)) as [Heq|Hne]; cbn [negb].
  - intros H. destruct (Hupdate H) as (-> & ? & ? & ? & ?).
    repeat (split; [done|]). by left.
  - destruct (Table.get UserDB.id _ _) as [owner|] eqn:Howner; [|done].
    intros H. destruct (Hupdate H) as (-> & ? & ? & ? & ?).
    repeat (split; [done|]). right. cbn [ProjectDB.owner_id].
    by rewrite Howner.
Qed.

Lemma put_project_overwrites_witness :
  Table.get ProjectDB.id 1 (projects (mkStore [] [] [ProjectDB.mk 1 "Q" "e" 1]))
  = Some (ProjectDB.mk 1 "Q" "e" 1).
Proof.
  apply (put_project_overwrites unique_keys 1 (ProjectUpdatePUT.mk "Q" "e" 1)
           orphaned (mkStore [] [] [ProjectDB.mk 1 "Q" "e" 1]) thesis
           (ProjectDB.mk 1 "Q" "e" 1)); reflexivity.
Defined.

(** X8. A PUT is the PATCH that sets every field: for courses and users the
    two requests have the same reply and leave the same store; for projects
    they do whenever some user has the payload's [owner_id]. *)
Theorem put_as_full_patch (violates : Store -> Op -> bool) (st : Store) :
  (forall course_id payload,
      app violates (PUT_course course_id payload) st
      = app violates
          (PATCH_course course_id
             (CourseUpdatePATCH.mk (Some (CourseUpdatePUT.code payload))
                (Some (CourseUpdatePUT.name payload))
                (Some (CourseUpdatePUT.credits payload)))) st)
  /\ (forall user_id payload,
        app violates (PUT_user user_id payload) st
        = app violates
            (PATCH_user user_id
               (UserUpdatePATCH.mk (Some (UserUpdatePUT.name payload))
                  (Some (UserUpdatePUT.email payload))
                  (Some (UserUpdatePUT.age payload))
                  (Some (UserUpdatePUT.student_id payload)))) st)
  /\ (forall project_id payload,
        Table.get UserDB.id (ProjectUpdatePUT.owner_id payload) (users st)
        <> None ->
        app violates (PUT_project project_id payload) st
        = app violates
            (PATCH_project project_id
               (ProjectUpdatePATCH.mk (Some (ProjectUpdatePUT.name payload))
                  (Some (ProjectUpdatePUT.description payload))
                  (Some (ProjectUpdatePUT.owner_id payload)))) st).
Proof.
  split; [|split].
  - intros course_id payload. rewrite put_course_run, patch_course_run.
    by destruct (Table.get _ _ _).
  - intros user_id payload. rewrite put_user_run, patch_user_run.
    by destruct (Table.get _ _ _).
  - intros project_id payload Howner.
    rewrite put_project_run, patch_project_run.
    destruct (Table.get ProjectDB.id _ _) as [row|]; [|done].
    cbv zeta. cbn [ProjectUpdatePATCH.owner_id].
    destruct (Table.get UserDB.id _ _) as [owner|]; [|done].
    by destruct (negb _).
Qed.

Lemma put_as_full_patch_witness :
  app unique_keys (PUT_project 1 (ProjectUpdatePUT.mk "Q" "e" 1)) campus
  = app unique_keys
      (PATCH_project 1 (ProjectUpdatePATCH.mk (Some "Q") (Some "e") (Some 1)))
      campus.
Proof.
  apply (proj2 (proj2 (put_as_full_patch unique_keys campus)) 1
           (ProjectUpdatePUT.mk "Q" "e" 1)).
  discriminate.
Defined.

(** X9. Replaying a PUT: when a PUT was answered 200 and the store accepts
    the same update once more, the same PUT on the resulting store gets the
    same reply and leaves that store as it is. *)
Theorem put_replay (violates : Store -> Op -> bool) (st st' : Store) :
  (forall course_id payload row',
      app violates (PUT_course course_id payload) st
      = (Response 200 (CourseRead row'), st') ->
      violates st' (Update (RCourse row')) = false ->
      app violates (PUT_course course_id payload) st'
      = (Response 200 (CourseRead row'), st'))
  /\ (forall user_id payload user',
        app violates (PUT_user user_id payload) st
        = (Response 200 (UserRead user'), st') ->
        violates st' (Update (RUser user')) = false ->
        app violates (PUT_user user_id payload) st'
        = (Response 200 (UserRead user'), st'))
  /\ (forall project_id payload row',
        app violates (PUT_project project_id payload) st
        = (Response 200 (ProjectRead row'), st') ->
        violates st' (Update (RProject row')) = false ->
        app violates (PUT_project project_id payload) st'
        = (Response 200 (ProjectRead row'), st')).
Proof.
  split; [|split].
  - intros course_id payload row'. rewrite put_course_run.
    destruct (Table.get _ _ _) as [row|] eqn:Hrow; [|done].
    pose proof (get_key _ _ _ _ Hrow) as Hid.
    cbv zeta. unfold committed at 1. destruct (violates _ _); [done|].
    intros [= <- <-] Hok. rewrite put_course_run.
    cbn [apply_op courses]. rewrite (get_put _ _ _ row) by done.
    cbv zeta. cbn [CourseDB.id]. rewrite committed_accepted by done.
    cbn [apply_op users courses projects]. by rewrite put_put.
  - intros user_id payload user'. rewrite put_user_run.
    destruct (Table.get _ _ _) as [user|] eqn:Huser; [|done].
    pose proof (get_key _ _ _ _ Huser) as Hid.
    cbv zeta. unfold committed at 1. destruct (violates _ _); [done|].
    intros [= <- <-] Hok. rewrite put_user_run.
    cbn [apply_op users]. rewrite (get_put _ _ _ user) by done.
    cbv zeta. cbn [UserDB.id]. rewrite committed_accepted by done.
    cbn [apply_op users courses projects]. by rewrite put_put.
  - intros project_id payload row'. rewrite put_project_run.
    destruct (Table.get _ _ _) as [row|] eqn:Hrow; [|done].
    pose proof (get_key _ _ _ _ Hrow) as Hid. cbv zeta.
    assert (Hreplay :
      committed violates st
        (Update (RProject
           (ProjectDB.mk (ProjectDB.id row) (ProjectUpdatePUT.name payload)
              (ProjectUpdatePUT.description payload)
              (ProjectUpdatePUT.owner_id payload))))
        "Project update failed" 200
        (ProjectRead
           (ProjectDB.mk (ProjectDB.id row) (ProjectUpdatePUT.name payload)
              (ProjectUpdatePUT.description payload)
              (ProjectUpdatePUT.owner_id payload)))
      = (Response 200 (ProjectRead row'), st') ->
      violates st' (Update (RProject row')) = false ->
      app violates (PUT_project project_id payload) st'
      = (Response 200 (ProjectRead row'), st')).
    { unfold committed at 1. destruct (violates _ _); [done|].
      intros [= <- <-] Hok. rewrite put_project_run.
      cbn [apply_op projects]. rewrite (get_put _ _ _ row) by done.
      cbv zeta. cbn [ProjectDB.id ProjectDB.owner_id].
      rewrite Z.eqb_refl. cbn [negb].
      rewrite committed_accepted by done.
      cbn [apply_op users courses projects]. by rewrite put_put. }
    destruct (negb _); [|done].
    by destruct (Table.get UserDB.id _ _).
Qed.

Lemma put_replay_witness :
  app unique_keys (PUT_course 1 (CourseUpdatePUT.mk "CS102" "Coding" 10))
    (mkStore [alice] [CourseDB.mk 1 "CS102" "Coding" 10; ma101] [thesis])
  = (Response 200 (CourseRead (CourseDB.mk 1 "CS102" "Coding" 10)),
     mkStore [alice] [CourseDB.mk 1 "CS102" "Coding" 10; ma101] [thesis]).
Proof.
  apply (proj1 (put_replay unique_keys campus
                  (mkStore [alice] [CourseDB.mk 1 "CS102" "Coding" 10; ma101]
                     [thesis]))); reflexivity.
Defined.

(** ** Deleting *)

(** X10. A DELETE answered 204, for courses, projects and users alike:
    every other id of the table fetches what it fetched before, the two
    other tables are as they were, and the same DELETE on the resulting
    store is answered 404 and changes nothing. *)
Theorem delete_removes_one_id
    (violates : Store -> Op -> bool) (st st' : Store) (id : Z) :
  (app violates (DELETE_course id) st = (Response 204 Empty, st') ->
   (forall k, k <> id ->
      Table.get CourseDB.id k (courses st')
      = Table.get CourseDB.id k (courses st))
   /\ users st' = users st /\ projects st' = projects st
   /\ app violates (DELETE_course id) st'
      = (Error 404 "Course not found", st'))
  /\ (app violates (DELETE_project id) st = (Response 204 Empty, st') ->
      (forall k, k <> id ->
         Table.get ProjectDB.id k (projects st')
         = Table.get ProjectDB.id k (projects st))
      /\ users st' = users st /\ courses st' = courses st
      /\ app violates (DELETE_project id) st'
         = (Error 404 "Project not found", st'))
  /\ (app violates (DELETE_user id) st = (Response 204 Empty, st') ->
      (forall k, k <> id ->
         Table.get UserDB.id k (users st') = Table.get UserDB.id k (users st))
      /\ courses st' = courses st /\ projects st' = projects st
      /\ app violates (DELETE_user id) st' = (Error 404 "User not found", st')).
Proof.
  split; [|split].
  - rewrite delete_course_run.
    destruct (Table.get _ _ _) as [row|] eqn:Hrow; [|done].
    pose proof (get_key _ _ _ _ Hrow) as Hid.
    unfold committed_bare. destruct (violates _ _); [done|].
    intros [= <-]. cbn [apply_op users courses projects]. rewrite Hid.
    split; [intros k Hk; by apply get_remove_ne|]. do 2 (split; [done|]).
    rewrite delete_course_run. cbn [courses]. by rewrite get_remove.
  - rewrite delete_project_run.
    destruct (Table.get _ _ _) as [row|] eqn:Hrow; [|done].
    pose proof (get_key _ _ _ _ Hrow) as Hid.
    unfold committed_bare. destruct (violates _ _); [done|].
    intros [= <-]. cbn [apply_op users courses projects]. rewrite Hid.
    split; [intros k Hk; by apply get_remove_ne|]. do 2 (split; [done|]).
    rewrite delete_project_run. cbn [projects]. by rewrite get_remove.
  - rewrite delete_user_run.
    destruct (Table.get _ _ _) as [row|] eqn:Hrow; [|done].
    pose proof (get_key _ _ _ _ Hrow) as Hid.
    unfold committed_bare. destruct (violates _ _); [done|].
    intros [= <-]. cbn [apply_op users courses projects]. rewrite Hid.
    split; [intros k Hk; by apply get_remove_ne|]. do 2 (split; [done|]).
    rewrite delete_user_run. cbn [users]. by rewrite get_remove.
Qed.

Lemma delete_removes_one_id_witness :
  app unique_keys (DELETE_course 2) (mkStore [alice] [cs101] [thesis])
  = (Error 404 "Course not found", mkStore [alice] [cs101] [thesis]).
Proof.
  apply (proj1 (delete_removes_one_id unique_keys campus
                  (mkStore [alice] [cs101] [thesis]) 2)).
  reflexivity.
Defined.

(** ** Patching *)

(** X11. Whatever the reply, a PATCH addressed to one id leaves every other
    id of its table fetching what it fetched before, and leaves the two
    other tables as they were. *)
Theorem patch_touches_one_id
    (violates : Store -> Op -> bool) (st : Store) (id k : Z) :
  k <> id ->
  (forall payload,
      let st' := snd (app violates (PATCH_course id payload) st) in
      Table.get CourseDB.id k (courses st')
      = Table.get CourseDB.id k (courses st)
      /\ users st' = users st /\ projects st' = projects st)
  /\ (forall payload,
        let st' := snd (app violates (PATCH_project id payload) st) in
        Table.get ProjectDB.id k (projects st')
        = Table.get ProjectDB.id k (projects st)
        /\ users st' = users st /\ courses st' = courses st)
  /\ (forall payload,
        let st' := snd (app violates (PATCH_user id payload) st) in
        Table.get UserDB.id k (users st') = Table.get UserDB.id k (users st)
        /\ courses st' = courses st /\ projects st' = projects st).
Proof.
  intros Hk. split; [|split]; intros payload st'; subst st'.
  - rewrite patch_course_run.
    destruct (Table.get CourseDB.id id _) as [row|] eqn:Hrow; [|done].
    pose proof (get_key _ _ _ _ Hrow) as Hid.
    destruct (dump_course_patch payload); [done|].
    cbv zeta. unfold committed. destruct (violates _ _); [done|].
    cbn [snd apply_op users courses projects]. split; [|done].
    apply get_put_ne. cbn [patched_course CourseDB.id]. lia.
  - rewrite patch_project_run.
    destruct (Table.get ProjectDB.id id _) as [row|] eqn:Hrow; [|done].
    pose proof (get_key _ _ _ _ Hrow) as Hid. cbv zeta.
    assert (Hupdate :
      let st' :=
        snd match dump_project_patch payload with
            | [] => (Response 200 (ProjectRead row), st)
            | _ =>
                committed violates st
                  (Update (RProject (patched_project row payload)))
                  "Project update failed" 200
                  (ProjectRead (patched_project row payload))
            end in
      Table.get ProjectDB.id k (projects st')
      = Table.get ProjectDB.id k (projects st)
      /\ users st' = users st /\ courses st' = courses st).
    { destruct (dump_project_patch payload); [done|].
      cbv zeta. unfold committed. destruct (violates _ _); [done|].
      cbn [snd apply_op users courses projects]. split; [|done].
      apply get_put_ne. cbn [patched_project ProjectDB.id]. lia. }
    destruct (ProjectUpdatePATCH.owner_id payload) as [owner_id|]; [|done].
    by destruct (Table.get UserDB.id _ _).
  - rewrite patch_user_run.
    destruct (Table.get UserDB.id id _) as [row|] eqn:Hrow; [|done].
    pose proof (get_key _ _ _ _ Hrow) as Hid.
    destruct (dump_user_patch payload); [done|].
    cbv zeta. unfold committed. destruct (violates _ _); [done|].
    cbn [snd apply_op users courses projects]. split; [|done].
    apply get_put_ne. cbn [patched_user UserDB.id]. lia.
Qed.

Lemma patch_touches_one_id_witness :
  Table.get CourseDB.id 2
    (courses
       (snd (app unique_keys
               (PATCH_course 1 (CourseUpdatePATCH.mk None (Some "Coding") None))
               campus)))
  = Table.get CourseDB.id 2 (courses campus).
Proof.
  apply (proj1 (patch_touches_one_id unique_keys campus 1 2 ltac:(lia))
           (CourseUpdatePATCH.mk None (Some "Coding") None)).
Defined.

Lemma patched_course_twice row payload :
  patched_course (patched_course row payload) payload
  = patched_course row payload.
Proof. by destruct row, payload as [[?|] [?|] [?|]]. Qed.

Lemma patched_project_twice row payload :
  patched_project (patched_project row payload) payload
  = patched_project row payload.
Proof. by destruct row, payload as [[?|] [?|] [?|]]. Qed.

Lemma patched_user_twice row payload :
  patched_user (patched_user row payload) payload = patched_user row payload.
Proof. by destruct row, payload as [[?|] [?|] [?|] [?|]]. Qed.

(** X12. Replaying a PATCH: when a PATCH was answered 200 and the store
    accepts the same update once more, the same PATCH on the resulting
    store gets the same reply and leaves that store as it is. *)
Theorem patch_replay (violates : Store -> Op -> bool) (st st' : Store) :
  (forall course_id payload row',
      app violates (PATCH_course course_id payload) st
      = (Response 200 (CourseRead row'), st') ->
      violates st' (Update (RCourse row')) = false ->
      app violates (PATCH_course course_id payload) st'
      = (Response 200 (CourseRead row'), st'))
  /\ (forall user_id payload user',
        app violates (PATCH_user user_id payload) st
        = (Response 200 (UserRead user'), st') ->
        violates st' (Update (RUser user')) = false ->
        app violates (PATCH_user user_id payload) st'
        = (Response 200 (UserRead user'), st'))
  /\ (forall project_id payload row',
        app violates (PATCH_project project_id payload) st
        = (Response 200 (ProjectRead row'), st') ->
        violates st' (Update (RProject row')) = false ->
        app violates (PATCH_project project_id payload) st'
        = (Response 200 (ProjectRead row'), st')).
Proof.
  split; [|split].
  - intros course_id payload row'. rewrite patch_course_run.
    destruct (Table.get _ _ _) as [row|] eqn:Hrow; [|done].
    pose proof (get_key _ _ _ _ Hrow) as Hid.
    destruct (dump_course_patch payload) as [|kv data] eqn:Hdump.
    + intros [= <- <-] _. by rewrite patch_course_run, Hrow, Hdump.
    + cbv zeta. unfold committed at 1. destruct (violates _ _); [done|].
      intros [= <- <-] Hok. rewrite patch_course_run, Hdump.
      cbn [apply_op courses]. rewrite (get_put _ _ _ row) by done.
      cbv zeta. rewrite patched_course_twice.
      rewrite committed_accepted by done.
      cbn [apply_op users courses projects]. by rewrite put_put.
  - intros user_id payload user'. rewrite patch_user_run.
    destruct (Table.get _ _ _) as [user|] eqn:Huser; [|done].
    pose proof (get_key _ _ _ _ Huser) as Hid.
    destruct (dump_user_patch payload) as [|kv data] eqn:Hdump.
    + intros [= <- <-] _. by rewrite patch_user_run, Huser, Hdump.
    + cbv zeta. unfold committed at 1. destruct (violates _ _); [done|].
      intros [= <- <-] Hok. rewrite patch_user_run, Hdump.
      cbn [apply_op users]. rewrite (get_put _ _ _ user) by done.
      cbv zeta. rewrite patched_user_twice.
      rewrite committed_accepted by done.
      cbn [apply_op users courses projects]. by rewrite put_put.
  - intros project_id payload row'. rewrite patch_project_run.
    destruct (Table.get _ _ _) as [row|] eqn:Hrow; [|done].
    pose proof (get_key _ _ _ _ Hrow) as Hid. cbv zeta.
    assert (Hreplay :
      match dump_project_patch payload with
      | [] => (Response 200 (ProjectRead row), st)
      | _ =>
          committed violates st
            (Update (RProject (patched_project row payload)))
            "Project update failed" 200
            (ProjectRead (patched_project row payload))
      end = (Response 200 (ProjectRead row'), st') ->
      violates st' (Update (RProject row')) = false ->
      users st' = users st
      /\ Table.get ProjectDB.id project_id (projects st') = Some row'
      /\ match dump_project_patch payload with
         | [] => (Response 200 (ProjectRead row'), st')
         | _ =>
             committed violates st'
               (Update (RProject (patched_project row' payload)))
               "Project update failed" 200
               (ProjectRead (patched_project row' payload))
         end = (Response 200 (ProjectRead row'), st')).
    { destruct (dump_project_patch payload) as [|kv data] eqn:Hdump.
      - by intros [= <- <-] _.
      - unfold committed at 1. destruct (violates _ _); [done|].
        intros [= <- <-] Hok. cbn [apply_op users projects].
        split; [done|]. split; [by apply get_put with row|].
        rewrite patched_project_twice. rewrite committed_accepted by done.
        cbn [apply_op users courses projects]. by rewrite put_put. }
    destruct (ProjectUpdatePATCH.owner_id payload) as [owner_id|] eqn:Hset.
    + destruct (Table.get UserDB.id _ _) as [owner|] eqn:Howner; [|done].
      intros H Hok. destruct (Hreplay H Hok) as (Husers & Hrow' & Hsame).
      rewrite patch_project_run, Hrow'. cbv zeta.
      by rewrite Hset, Husers, Howner.
    + intros H Hok. destruct (Hreplay H Hok) as (Husers & Hrow' & Hsame).
      rewrite patch_project_run, Hrow'. cbv zeta. by rewrite Hset.
Qed.

Lemma patch_replay_witness :
  app unique_keys
    (PATCH_course 1 (CourseUpdatePATCH.mk None (Some "Coding") None))
    (mkStore [alice] [CourseDB.mk 1 "CS101" "Coding" 5; ma101] [thesis])
  = (Response 200 (CourseRead (CourseDB.mk 1 "CS101" "Coding" 5)),
     mkStore [alice] [CourseDB.mk 1 "CS101" "Coding" 5; ma101] [thesis]).
Proof.
  apply (proj1 (patch_replay unique_keys campus
                  (mkStore [alice] [CourseDB.mk 1 "CS101" "Coding" 5; ma101]
                     [thesis]))); reflexivity.
Defined.

(** ** All routes *)

Ltac all_runs :=
  rewrite ?create_course_run, ?put_course_run, ?patch_course_run,
    ?delete_course_run, ?create_project_run, ?create_user_project_run,
    ?put_project_run, ?patch_project_run, ?delete_project_run,
    ?add_user_run, ?put_user_run, ?patch_user_run, ?delete_user_run,
    ?get_course_run, ?get_user_run, ?get_project_owner_run;
  cbv zeta; unfold committed, committed_bare.

Ltac split_matches :=
  repeat match goal with
    | |- context [match ?x with _ => _ end] => destruct x
    end.

(** X13. No request that fails leaves a trace: whenever the reply is not a
    success response, be it a 404, a 409 or a server error, the store after
    the request is the store before it. *)
Theorem failed_request_changes_nothing
    (violates : Store -> Op -> bool) (req : Request) (st : Store) :
  is_response (fst (app violates req st)) = false ->
  snd (app violates req st) = st.
Proof.
  destruct req; all_runs; try done; split_matches; done.
Qed.

Lemma failed_request_changes_nothing_witness :
  snd (app foreign_keys (DELETE_user 1) campus) = campus
  /\ snd (app unique_keys
            (PUT_course 2 (CourseUpdatePUT.mk "CS101" "Calculus" 5)) campus)
     = campus.
Proof.
  split.
  - apply (failed_request_changes_nothing foreign_keys (DELETE_user 1) campus).
    reflexivity.
  - apply (failed_request_changes_nothing unique_keys
             (PUT_course 2 (CourseUpdatePUT.mk "CS101" "Calculus" 5)) campus).
    reflexivity.
Defined.

(** X14. A GET never writes and never consults the store's constraints: the
    store after it is the store before it, and the reply is the same
    whatever the store would accept or reject. *)
Theorem get_is_read_only
    (violates violates' : Store -> Op -> bool) (req : Request) (st : Store) :
  method req = GET ->
  snd (app violates req st) = st
  /\ app violates req st = app violates' req st.
Proof.
  destruct req; try discriminate; intros _; all_runs; try done;
    split_matches; done.
Qed.

Lemma get_is_read_only_witness :
  app unique_keys (GET_project 1) campus
  = app foreign_keys (GET_project 1) campus.
Proof.
  apply (get_is_read_only unique_keys foreign_keys (GET_project 1) campus).
  reflexivity.
Defined.

(** X15. The status codes of each method: a GET is answered 200, 404 or
    (when two projects share the id asked for) 500; a POST 201, 404 or 409;
    a PUT or PATCH 200, 404 or 409; a DELETE 204, 404 or 500.  So a write
    through POST, PUT or PATCH is never a server error and a DELETE is
    never a 409. *)
Theorem status_by_method
    (violates : Store -> Op -> bool) (req : Request) (st : Store) :
  let code := status (fst (app violates req st)) in
  match method req with
  | GET => code = 200 \/ code = 404 \/ code = 500
  | POST => code = 201 \/ code = 404 \/ code = 409
  | PUT | PATCH => code = 200 \/ code = 404 \/ code = 409
  | DELETE => code = 204 \/ code = 404 \/ code = 500
  end.
Proof.
  destruct req; all_runs; cbn [method]; try (by left);
    split_matches; cbn [fst status]; auto.
Qed.

(** ** Reading *)

(** X16. [GET /api/courses/{id}] and [GET /api/users/{id}]: the reply is
    404 with the kind's message exactly when no stored row has the id;
    otherwise it is 200 with a stored row whose id is the one asked for. *)
Theorem get_by_id_found_or_404
    (violates : Store -> Op -> bool) (st : Store) (id : Z) :
  (fst (app violates (GET_course id) st) = Error 404 "Course not found"
   <-> forall r, In r (courses st) -> CourseDB.id r <> id)
  /\ (forall row,
        fst (app violates (GET_course id) st) = Response 200 (CourseRead row)
        -> In row (courses st) /\ CourseDB.id row = id)
  /\ ((exists r, In r (courses st) /\ CourseDB.id r = id) ->
      exists row,
        fst (app violates (GET_course id) st) = Response 200 (CourseRead row))
  /\ (fst (app violates (GET_user id) st) = Error 404 "User not found"
      <-> forall r, In r (users st) -> UserDB.id r <> id)
  /\ (forall user,
        fst (app violates (GET_user id) st) = Response 200 (UserRead user)
        -> In user (users st) /\ UserDB.id user = id)
  /\ ((exists r, In r (users st) /\ UserDB.id r = id) ->
      exists user,
        fst (app violates (GET_user id) st) = Response 200 (UserRead user)).
Proof.
  rewrite get_course_run, get_user_run, <- !get_None.
  split; [|split; [|split; [|split; [|split]]]].
  - by destruct (Table.get _ _ _).
  - destruct (Table.get _ _ _) as [r|] eqn:Hr; [|done].
    intros row [= <-]. split; [by apply get_In in Hr|by apply get_key in Hr].
  - intros (r & Hr & Hid).
    destruct (Table.get _ _ _) as [row|] eqn:Hrow; [by exists row|].
    rewrite get_None in Hrow. by destruct (Hrow r Hr).
  - by destruct (Table.get _ _ _).
  - destruct (Table.get _ _ _) as [r|] eqn:Hr; [|done].
    intros user [= <-]. split; [by apply get_In in Hr|by apply get_key in Hr].
  - intros (r & Hr & Hid).
    destruct (Table.get _ _ _) as [user|] eqn:Huser; [by exists user|].
    rewrite get_None in Huser. by destruct (Huser r Hr).
Qed.

Lemma get_by_id_found_or_404_witness :
  In ma101 (courses campus) /\ CourseDB.id ma101 = 2.
Proof.
  apply (proj1 (proj2 (get_by_id_found_or_404 unique_keys campus 2)) ma101).
  reflexivity.
Defined.

(** X17. [GET /api/projects/{id}]: the reply is 404 "Project not found"
    exactly when no stored project has the id.  A reply of 200 carries a
    stored project with that id together with the user fetched under its
    [owner_id]; no owner is embedded exactly when no stored user has that
    id. *)
Theorem get_project_owner_embeds_owner
    (violates : Store -> Op -> bool) (st : Store) (project_id : Z) :
  (fst (app violates (GET_project project_id) st)
   = Error 404 "Project not found"
   <-> forall p, In p (projects st) -> ProjectDB.id p <> project_id)
  /\ (forall row owner,
        fst (app violates (GET_project project_id) st)
        = Response 200 (ProjectReadWithOwner row owner) ->
        In row (projects st) /\ ProjectDB.id row = project_id
        /\ owner = Table.get UserDB.id (ProjectDB.owner_id row) (users st)
        /\ (owner = None <->
            forall u, In u (users st) ->
                      UserDB.id u <> ProjectDB.owner_id row)).
Proof.
  rewrite get_project_owner_run.
  destruct (List.filter _ _) as [|p [|q ps]] eqn:Hsel.
  - split; [|done]. split; [|done]. intros _ p Hp Hid.
    assert (Hin : In p (List.filter (fun p => ProjectDB.id p =? project_id)
                          (projects st))).
    { apply filter_In. split; [done|]. by apply Z.eqb_eq. }
    by rewrite Hsel in Hin.
  - assert (Hin : In p (List.filter (fun p => ProjectDB.id p =? project_id)
                          (projects st))) by (rewrite Hsel; by left).
    apply filter_In in Hin as [Hp Hid]. apply Z.eqb_eq in Hid.
    split.
    + split; [done|]. intros Hnone. by destruct (Hnone p Hp).
    + intros row owner [= <- <-]. do 3 (split; [done|]). apply get_None.
  - assert (Hin : In p (List.filter (fun p => ProjectDB.id p =? project_id)
                          (projects st))) by (rewrite Hsel; by left).
    apply filter_In in Hin as [Hp Hid]. apply Z.eqb_eq in Hid.
    split; [|done]. split; [done|]. intros Hnone. by destruct (Hnone p Hp).
Qed.

(** The project of a user who is gone is returned without an owner. *)
Lemma get_project_owner_embeds_owner_witness :
  None = Table.get UserDB.id (ProjectDB.owner_id thesis) (users orphaned).
Proof.
  destruct (proj2 (get_project_owner_embeds_owner unique_keys orphaned 1)
              thesis None eq_refl) as (_ & _ & Howner & _).
  exact Howner.
Defined.

(** X18. [GET /api/projects] and [GET /api/users] are always answered 200,
    leave the store as it is, and return every stored row exactly once, in
    ascending order of id. *)
Theorem list_all_sorted (violates : Store -> Op -> bool) (st : Store) :
  (exists ps,
      app violates GET_projects st = (Response 200 (ProjectList ps), st)
      /\ ps ≡ₚ projects st
      /\ StronglySorted (fun a b => ProjectDB.id a <= ProjectDB.id b) ps)
  /\ (exists us,
        app violates GET_users st = (Response 200 (UserList us), st)
        /\ us ≡ₚ users st
        /\ StronglySorted (fun a b => UserDB.id a <= UserDB.id b) us).
Proof.
  split.
  - exists (order_by ProjectDB.id (projects st)). split; [done|]. split.
    + apply merge_sort_Permutation.
    + apply (StronglySorted_merge_sort (id_le ProjectDB.id)).
  - exists (order_by UserDB.id (users st)). split; [done|]. split.
    + apply merge_sort_Permutation.
    + apply (StronglySorted_merge_sort (id_le UserDB.id)).
Qed.

(** ** Pages of courses *)

Lemma take_then_more {A : Type} (n m : nat) (l : list A) :
  take n l ++ take m (drop n l) = take (n + m) l.
Proof.
  revert l. induction n as [|n IH]; intros [|x l]; simpl; try done.
  - by rewrite take_nil.
  - by rewrite IH.
Qed.

Lemma In_take {A : Type} (n : nat) (l : list A) x : In x (take n l) -> In x l.
Proof.
  intros H. rewrite <- (take_drop n l). apply in_or_app. by left.
Qed.

Lemma In_drop {A : Type} (n : nat) (l : list A) x : In x (drop n l) -> In x l.
Proof.
  intros H. rewrite <- (take_drop n l). apply in_or_app. by right.
Qed.

Lemma StronglySorted_take {A : Type} (R : relation A) (n : nat) (l : list A) :
  StronglySorted R l -> StronglySorted R (take n l).
Proof.
  intros H. rewrite <- (take_drop n l) in H.
  by apply StronglySorted_app_1_l in H.
Qed.

Lemma StronglySorted_drop {A : Type} (R : relation A) (n : nat) (l : list A) :
  StronglySorted R l -> StronglySorted R (drop n l).
Proof.
  intros H. rewrite <- (take_drop n l) in H.
  by apply StronglySorted_app_1_r in H.
Qed.

(** X19. Pages of [GET /api/courses] join up: for limits and an offset that
    are not negative, the page of [n] courses at [offset] followed by the
    page of [m] courses at [offset + n] is the page of [n + m] courses at
    [offset]. *)
Theorem list_courses_pages_join
    (violates : Store -> Op -> bool) (st : Store) (n m offset : Z) :
  0 <= n -> 0 <= m -> 0 <= offset ->
  exists page1 page2,
    app violates (GET_courses (Some n) (Some offset)) st
    = (Response 200 (CourseList page1), st)
    /\ app violates (GET_courses (Some m) (Some (offset + n))) st
       = (Response 200 (CourseList page2), st)
    /\ app violates (GET_courses (Some (n + m)) (Some offset)) st
       = (Response 200 (CourseList (page1 ++ page2)), st).
Proof.
  intros Hn Hm Hoffset. rewrite !list_courses_run. cbn [from_option id].
  set (sorted := order_by CourseDB.id (courses st)).
  exists (sql_limit n (sql_offset offset sorted)),
         (sql_limit m (sql_offset (offset + n) sorted)).
  split; [done|]. split; [done|].
  assert (Hjoin :
    sql_limit (n + m) (sql_offset offset sorted)
    = sql_limit n (sql_offset offset sorted)
        ++ sql_limit m (sql_offset (offset + n) sorted)); [|by rewrite Hjoin].
  unfold sql_limit, sql_offset.
  destruct (Z.ltb_spec n 0); [lia|]. destruct (Z.ltb_spec m 0); [lia|].
  destruct (Z.ltb_spec (n + m) 0); [lia|].
  rewrite !Z2Nat.inj_add by lia. rewrite <- drop_drop.
  symmetry. apply take_then_more.
Qed.

Lemma list_courses_pages_join_witness :
  exists page1 page2,
    app unique_keys (GET_courses (Some 1) (Some 0)) campus
    = (Response 200 (CourseList page1), campus)
    /\ app unique_keys (GET_courses (Some 1) (Some (0 + 1))) campus
       = (Response 200 (CourseList page2), campus)
    /\ app unique_keys (GET_courses (Some (1 + 1)) (Some 0)) campus
       = (Response 200 (CourseList (page1 ++ page2)), campus).
Proof.
  apply (list_courses_pages_join unique_keys campus 1 1 0); lia.
Defined.

(** X20. Every page of [GET /api/courses] holds stored courses only, in
    ascending order of id, and no more of them than the limit when the
    limit is not negative (10 when the query gives none). *)
Theorem list_courses_page_bounded
    (violates : Store -> Op -> bool) (st : Store) (limit offset : option Z) :
  exists page,
    app violates (GET_courses limit offset) st
    = (Response 200 (CourseList page), st)
    /\ (forall row, In row page -> In row (courses st))
    /\ StronglySorted (fun a b => CourseDB.id a <= CourseDB.id b) page
    /\ (0 <= default 10 limit ->
        Z.of_nat (length page) <= default 10 limit).
Proof.
  rewrite list_courses_run. eexists. split; [done|].
  assert (Hsorted : StronglySorted (id_le CourseDB.id)
                      (order_by CourseDB.id (courses st)))
    by apply (StronglySorted_merge_sort (id_le CourseDB.id)).
  unfold sql_limit, sql_offset. split; [|split].
  - intros row Hrow.
    assert (Hin : In row (order_by CourseDB.id (courses st))).
    { destruct (_ <? _); [|apply In_take in Hrow]; by apply In_drop in Hrow. }
    apply list_elem_of_In. apply list_elem_of_In in Hin.
    by rewrite <- (merge_sort_Permutation (id_le CourseDB.id) (courses st)).
  - destruct (_ <? _); [|apply StronglySorted_take];
      by apply StronglySorted_drop.
  - intros Hlimit. destruct (Z.ltb_spec (default 10 limit) 0); [lia|].
    rewrite length_take. lia.
Qed.

Lemma list_courses_page_bounded_witness :
  exists page,
    app unique_keys (GET_courses (Some 1) None) campus
    = (Response 200 (CourseList page), campus)
    /\ Z.of_nat (length page) <= 1.
Proof.
  destruct (list_courses_page_bounded unique_keys campus (Some 1) None)
    as (page & Hreply & _ & _ & Hbound).
  exists page. split; [exact Hreply|]. apply Hbound. simpl. lia.
Defined.

(** ** Moving a project *)

(** X21. A [PUT /api/projects/{id}] answered 200 puts the project in the
    listing of the payload's owner; when that owner differs from the old
    one, the old owner's listing no longer has any project of that id. *)
Theorem put_project_moves_listing
    (violates : Store -> Op -> bool) (project_id : Z)
    (payload : ProjectUpdatePUT.t) (st st' : Store) (row row' : ProjectDB.t) :
  Table.get ProjectDB.id project_id (projects st) = Some row ->
  app violates (PUT_project project_id payload) st
  = (Response 200 (ProjectRead row'), st') ->
  (exists owned,
      app violates (GET_user_projects (ProjectUpdatePUT.owner_id payload)) st'
      = (Response 200 (ProjectList owned), st')
      /\ In row' owned)
  /\ (ProjectUpdatePUT.owner_id payload <> ProjectDB.owner_id row ->
      exists owned,
        app violates (GET_user_projects (ProjectDB.owner_id row)) st'
        = (Response 200 (ProjectList owned), st')
        /\ forall p, In p owned -> ProjectDB.id p <> project_id).
Proof.
  intros Hrow. pose proof (get_key _ _ _ _ Hrow) as Hid.
  rewrite put_project_run, Hrow. cbv zeta.
  assert (Hupdate :
    committed violates st
      (Update (RProject
         (ProjectDB.mk (ProjectDB.id row) (ProjectUpdatePUT.name payload)
            (ProjectUpdatePUT.description payload)
            (ProjectUpdatePUT.owner_id payload))))
      "Project update failed" 200
      (ProjectRead
         (ProjectDB.mk (ProjectDB.id row) (ProjectUpdatePUT.name payload)
            (ProjectUpdatePUT.description payload)
            (ProjectUpdatePUT.owner_id payload)))
    = (Response 200 (ProjectRead row'), st') ->
    row' = ProjectDB.mk project_id (ProjectUpdatePUT.name payload)
             (ProjectUpdatePUT.description payload)
             (ProjectUpdatePUT.owner_id payload)
    /\ projects st' = Table.put ProjectDB.id row' (projects st)).
  { unfold committed. destruct (violates _ _); [done|].
    intros [= <- <-]. by rewrite Hid. }
  assert (Hmoved :
    row' = ProjectDB.mk project_id (ProjectUpdatePUT.name payload)
             (ProjectUpdatePUT.description payload)
             (ProjectUpdatePUT.owner_id payload)
    /\ projects st' = Table.put ProjectDB.id row' (projects st) ->
    (exists owned,
        app violates (GET_user_projects (ProjectUpdatePUT.owner_id payload))
          st'
        = (Response 200 (ProjectList owned), st')
        /\ In row' owned)
    /\ (ProjectUpdatePUT.owner_id payload <> ProjectDB.owner_id row ->
        exists owned,
          app violates (GET_user_projects (ProjectDB.owner_id row)) st'
          = (Response 200 (ProjectList owned), st')
          /\ forall p, In p owned -> ProjectDB.id p <> project_id)).
  { intros [Hrow' Hst']. split.
    - eexists. split; [apply get_user_projects_run|].
      apply filter_In. split.
      + rewrite Hst'. apply (get_In ProjectDB.id project_id).
        apply get_put with row; [done|]. by rewrite Hrow'.
      + rewrite Hrow'. apply Z.eqb_refl.
    - intros Hne. eexists. split; [apply get_user_projects_run|].
      intros p Hp Hpid. apply filter_In in Hp as [Hp Howner].
      apply Z.eqb_eq in Howner. rewrite Hst' in Hp.
      assert (p = row') as ->.
      { apply (put_key ProjectDB.id row' (projects st)); [done|].
        rewrite Hpid. by rewrite Hrow'. }
      rewrite Hrow' in Howner. by cbn in Howner. }
  destruct (negb _); [|by intros H; apply Hmoved, Hupdate].
  destruct (Table.get UserDB.id _ _); [|done].
  by intros H; apply Hmoved, Hupdate.
Qed.

Lemma put_project_moves_listing_witness :
  exists owned,
    app unique_keys (GET_user_projects 1)
      (mkStore [alice] [] [ProjectDB.mk 1 "Q" "e" 1])
    = (Response 200 (ProjectList owned),
       mkStore [alice] [] [ProjectDB.mk 1 "Q" "e" 1])
    /\ In (ProjectDB.mk 1 "Q" "e" 1) owned.
Proof.
  apply (proj1 (put_project_moves_listing unique_keys 1
                  (ProjectUpdatePUT.mk "Q" "e" 1)
                  (mkStore [alice] [] [thesis])
                  (mkStore [alice] [] [ProjectDB.mk 1 "Q" "e" 1]) thesis
                  (ProjectDB.mk 1 "Q" "e" 1) eq_refl eq_refl)).
Defined.

(** ** Primary keys *)

Section keys.
Context {A : Type} (key : A -> Z).

Lemma keys_put r t : List.map key (Table.put key r t) = List.map key t.
Proof.
  unfold Table.put. induction t as [|x t IH]; simpl; [done|].
  rewrite IH. f_equal. by destruct (Z.eqb_spec (key x) (key r)).
Qed.

Lemma keys_remove k t :
  NoDup (List.map key t) -> NoDup (List.map key (Table.remove key k t)).
Proof.
  unfold Table.remove. induction t as [|x t IH]; simpl; [done|].
  rewrite NoDup_cons. intros [Hx Ht].
  destruct (key x =? k); simpl; [by apply IH|].
  apply NoDup_cons. split; [|by apply IH].
  intros Hin. apply Hx. apply list_elem_of_In in Hin.
  apply list_elem_of_In. apply in_map_iff in Hin as (y & Hy & Hin).
  apply in_map_iff. exists y. split; [done|].
  by apply List.filter_In in Hin as [Hin _].
Qed.

Lemma keys_insert r t :
  key r = Table.next_id key t ->
  NoDup (List.map key t) -> NoDup (List.map key (t ++ [r])).
Proof.
  intros Hr Ht. rewrite List.map_app. apply NoDup_app.
  split; [done|]. split; [|apply NoDup_singleton].
  intros k Hk Hk'. apply list_elem_of_In in Hk.
  apply in_map_iff in Hk as (x & <- & Hx).
  apply list_elem_of_singleton in Hk'. simpl in Hk'.
  pose proof (next_id_above key t x Hx). lia.
Qed.

Lemma select_at_most_one k t :
  NoDup (List.map key t) ->
  List.filter (fun x => key x =? k) t = []
  \/ exists r, List.filter (fun x => key x =? k) t = [r].
Proof.
  induction t as [|x t IH]; simpl; [by left|].
  rewrite NoDup_cons. intros [Hx Ht].
  destruct (Z.eqb_spec (key x) k) as [Hk|_]; [|by apply IH].
  right. exists x. f_equal.
  assert (Hnone : forall y, In y t -> (key y =? k) = false).
  { intros y Hy. apply Z.eqb_neq. intros Hyk. apply Hx.
    apply list_elem_of_In, in_map_iff. exists y. split; [lia|done]. }
  clear -Hnone. induction t as [|y t IH]; simpl; [done|].
  rewrite (Hnone y (or_introl eq_refl)). apply IH.
  intros z Hz. apply Hnone. by right.
Qed.

End keys.

Lemma keys_unique_insert_user st u :
  UserDB.id u = Table.next_id UserDB.id (users st) ->
  keys_unique st -> keys_unique (apply_op st (Insert (RUser u))).
Proof.
  intros Hu (Hus & Hcs & Hps). repeat split; try done.
  by apply keys_insert.
Qed.

Lemma keys_unique_insert_course st c :
  CourseDB.id c = Table.next_id CourseDB.id (courses st) ->
  keys_unique st -> keys_unique (apply_op st (Insert (RCourse c))).
Proof.
  intros Hc (Hus & Hcs & Hps). repeat split; try done.
  by apply keys_insert.
Qed.

Lemma keys_unique_insert_project st p :
  ProjectDB.id p = Table.next_id ProjectDB.id (projects st) ->
  keys_unique st -> keys_unique (apply_op st (Insert (RProject p))).
Proof.
  intros Hp (Hus & Hcs & Hps). repeat split; try done.
  by apply keys_insert.
Qed.

Lemma keys_unique_update st r :
  keys_unique st -> keys_unique (apply_op st (Update r)).
Proof.
  intros (Hus & Hcs & Hps).
  destruct r; repeat split; simpl; by rewrite ?keys_put.
Qed.

Lemma keys_unique_delete st r :
  keys_unique st -> keys_unique (apply_op st (Delete r)).
Proof.
  intros (Hus & Hcs & Hps).
  destruct r; repeat split; simpl; try done; by apply keys_remove.
Qed.

(** X22. Primary keys stay unique: the empty store has no two rows with the
    same id in a table, and no request, whatever its reply, leaves a store
    that has. *)
Theorem requests_keep_keys_unique
    (violates : Store -> Op -> bool) (req : Request) (st : Store) :
  keys_unique empty_store
  /\ (keys_unique st -> keys_unique (snd (app violates req st))).
Proof.
  split; [repeat split; apply NoDup_nil_2|].
  intros Hst.
  destruct req; all_runs; try done; split_matches; cbn [snd]; try done;
    auto using keys_unique_insert_user, keys_unique_insert_course,
      keys_unique_insert_project, keys_unique_update, keys_unique_delete.
Qed.

Lemma requests_keep_keys_unique_witness :
  keys_unique
    (snd (app unique_keys (POST_users (UserCreate.mk "A" "a@x.com" 20 "S1"))
            empty_store)).
Proof.
  destruct (requests_keep_keys_unique unique_keys
              (POST_users (UserCreate.mk "A" "a@x.com" 20 "S1")) empty_store)
    as [Hempty Hstep].
  exact (Hstep Hempty).
Defined.

(** X23. On a store whose primary keys are unique no GET is a server error:
    every GET is answered 200 or 404. *)
Theorem get_never_fails_on_unique_keys
    (violates : Store -> Op -> bool) (req : Request) (st : Store) :
  keys_unique st ->
  method req = GET ->
  status (fst (app violates req st)) = 200
  \/ status (fst (app violates req st)) = 404.
Proof.
  intros (_ & _ & Hps).
  destruct req; try discriminate; intros _; all_runs; try (by left).
  - destruct (Table.get _ _ _); auto.
  - destruct (select_at_most_one ProjectDB.id project_id (projects st) Hps)
      as [->|[r ->]]; auto.
  - destruct (Table.get _ _ _); auto.
Qed.

Lemma get_never_fails_on_unique_keys_witness :
  status (fst (app unique_keys (GET_project 1) campus)) = 200
  \/ status (fst (app unique_keys (GET_project 1) campus)) = 404.
Proof.
  apply (get_never_fails_on_unique_keys unique_keys (GET_project 1) campus).
  - repeat split; repeat constructor; simpl; intros H;
      repeat (apply elem_of_cons in H as [H|H]; [discriminate H|]);
      by apply elem_of_nil in H.
  - reflexivity.
Defined.
